(** * bq_agent: the six BigQuery tools of [bq_agent/agent.py]

    A shallow embedding of the tool functions of the agent module and of
    the part of the Python runtime they rely on, followed by the properties
    of the tools.

    Conventions of the embedding.
    - A Python [str] is a [string]; each character stands for one code
      point below 256.
    - Python values are the tagged union [pyval]; [type_of] gives the
      runtime class and [isinstance] follows the class hierarchy of
      CPython ([bool] is a subclass of [int], [datetime.datetime] is a
      subclass of [datetime.date]).
    - The warehouse client library is an oracle ([Warehouse]): each of its
      calls either raises or returns.  An exception records whether its
      class derives from [Exception]; [KeyboardInterrupt] and [SystemExit]
      do not, and [except Exception] lets them through.
    - A tool runs in the monad [Tool]: it produces the chronological list of
      the effects it performed (client constructions, warehouse calls,
      printed lines) and either returns a value or raises. *)

From Stdlib Require Import ZArith List String Ascii Bool Lia.
From Stdlib Require Import Numbers.DecimalString Numbers.DecimalNat.
From Stdlib Require Import Floats.SpecFloat.
Import ListNotations.

Set Warnings "-register-all".

Open Scope list_scope.
Open Scope string_scope.

(* ------------------------------------------------------------------ *)
(** ** Text formatting of the runtime *)
(* ------------------------------------------------------------------ *)

Module PyStr.

(** [str(n)] for a non-negative [int], as in [f"{idx}"] and [f"{len(rows)}"]. *)
Definition of_nat (n : nat) : string :=
  NilEmpty.string_of_uint (Nat.to_uint n).

(** [str(z)] for an [int]. *)
Definition of_Z (z : Z) : string :=
  NilEmpty.string_of_int (Z.to_int z).

Fixpoint zeros (n : nat) : string :=
  match n with
  | O => ""
  | S n' => String "0" (zeros n')
  end.

(** ["%0<width>d" % n] for a non-negative [n]. *)
Definition zpad (width : nat) (n : N) : string :=
  let s := NilEmpty.string_of_uint (N.to_uint n) in
  zeros (width - String.length s) ++ s.

(** ["%+d" % z]. *)
Definition plus_d (z : Z) : string :=
  if (z <? 0)%Z then of_Z z else "+" ++ of_Z z.

(** [c.isspace()] on the code points below 256: TAB, LF, VT, FF, CR,
    FS, GS, RS, US, SPACE, NEL and NBSP. *)
Definition isspace (c : ascii) : bool :=
  let n := nat_of_ascii c in
  (((9 <=? n) && (n <=? 13)) || ((28 <=? n) && (n <=? 32))
   || (n =? 133) || (n =? 160))%nat.

Fixpoint lstrip (s : string) : string :=
  match s with
  | EmptyString => EmptyString
  | String c s' => if isspace c then lstrip s' else s
  end.

Fixpoint rstrip (s : string) : string :=
  match s with
  | EmptyString => EmptyString
  | String c s' =>
      match rstrip s' with
      | EmptyString => if isspace c then EmptyString else String c EmptyString
      | r => String c r
      end
  end.

(** [s.strip()]. *)
Definition strip (s : string) : string := rstrip (lstrip s).

(** Truth value of a [str]: [not s] holds exactly for the empty string. *)
Definition truthy (s : string) : bool :=
  match s with
  | EmptyString => false
  | String _ _ => true
  end.

(** [s] consists of whitespace only (the empty string included). *)
Fixpoint all_space (s : string) : bool :=
  match s with
  | EmptyString => true
  | String c s' => isspace c && all_space s'
  end.

(** [sep.join(parts)]. *)
Definition join (sep : string) (parts : list string) : string :=
  String.concat sep parts.

End PyStr.

(* ------------------------------------------------------------------ *)
(** ** [datetime.date], [datetime.time], [datetime.datetime] *)
(* ------------------------------------------------------------------ *)

Module Datetime.

Record date := mkdate { year : N; month : N; day : N }.

(** [utcoffset] is the offset of the attached [tzinfo] in microseconds,
    [None] for a naive value. *)
Record time := mktime {
  hour : N; minute : N; second : N; microsecond : N;
  utcoffset : option Z
}.

Record datetime := mkdatetime { dt_date : date; dt_time : time }.

(** [date.isoformat]: ["%04d-%02d-%02d"]. *)
Definition date_isoformat (d : date) : string :=
  PyStr.zpad 4 (year d) ++ "-" ++ PyStr.zpad 2 (month d) ++ "-"
  ++ PyStr.zpad 2 (day d).

(** [_format_time] with [timespec='auto']. *)
Definition format_time (t : time) : string :=
  let hms := PyStr.zpad 2 (hour t) ++ ":" ++ PyStr.zpad 2 (minute t) ++ ":"
             ++ PyStr.zpad 2 (second t) in
  if (microsecond t =? 0)%N then hms
  else hms ++ "." ++ PyStr.zpad 6 (microsecond t).

(** [_format_offset]: sign, hours and minutes, then seconds and
    microseconds when they are not zero. *)
Definition format_offset (off : option Z) : string :=
  match off with
  | None => ""
  | Some o =>
      let sign := if (o <? 0)%Z then "-" else "+" in
      let a := Z.to_N (Z.abs o) in
      let hh := (a / 3600000000)%N in
      let r := (a mod 3600000000)%N in
      let mm := (r / 60000000)%N in
      let ss := (r mod 60000000)%N in
      let s := sign ++ PyStr.zpad 2 hh ++ ":" ++ PyStr.zpad 2 mm in
      if (ss =? 0)%N then s
      else
        let s := s ++ ":" ++ PyStr.zpad 2 (ss / 1000000)%N in
        if (ss mod 1000000 =? 0)%N then s
        else s ++ "." ++ PyStr.zpad 6 (ss mod 1000000)%N
  end.

(** [time.isoformat]. *)
Definition time_isoformat (t : time) : string :=
  format_time t ++ format_offset (utcoffset t).

(** [datetime.isoformat] with the default separator ['T']. *)
Definition datetime_isoformat (d : datetime) : string :=
  date_isoformat (dt_date d) ++ "T" ++ format_time (dt_time d)
  ++ format_offset (utcoffset (dt_time d)).

End Datetime.

(* ------------------------------------------------------------------ *)
(** ** [decimal.Decimal] *)
(* ------------------------------------------------------------------ *)

Module Decimal.

(** The exponent field [_exp]: an integer, or one of the markers of the
    special values (['F'] infinity, ['n'] quiet NaN, ['N'] signalling NaN). *)
Inductive exponent :=
| Fin (e : Z)
| Inf
| QNaN
| SNaN.

(** [_sign] (true for negative), [_int] (the coefficient digits), [_exp]. *)
Record t := mk { sign : bool; digits : string; exp : exponent }.

(** [Decimal.__str__] in the default context (scientific notation,
    capital [E]). *)
Definition to_str (d : t) : string :=
  let sg := if sign d then "-" else "" in
  match exp d with
  | Inf => sg ++ "Infinity"
  | QNaN => sg ++ "NaN" ++ digits d
  | SNaN => sg ++ "sNaN" ++ digits d
  | Fin e =>
      let n := Z.of_nat (String.length (digits d)) in
      let leftdigits := (e + n)%Z in
      let dotplace :=
        if ((e <=? 0) && (-6 <? leftdigits))%Z then leftdigits else 1%Z in
      let intpart :=
        if (dotplace <=? 0)%Z then "0"
        else if (n <=? dotplace)%Z
             then digits d ++ PyStr.zeros (Z.to_nat (dotplace - n))
             else substring 0 (Z.to_nat dotplace) (digits d) in
      let fracpart :=
        if (dotplace <=? 0)%Z
        then "." ++ PyStr.zeros (Z.to_nat (- dotplace)) ++ digits d
        else if (n <=? dotplace)%Z then ""
             else "." ++ substring (Z.to_nat dotplace)
                                   (Z.to_nat (n - dotplace)) (digits d) in
      let ex :=
        if (leftdigits =? dotplace)%Z then ""
        else "E" ++ PyStr.plus_d (leftdigits - dotplace) in
      sg ++ intpart ++ fracpart ++ ex
  end.

End Decimal.

(* ------------------------------------------------------------------ *)
(** ** Python values and their classes *)
(* ------------------------------------------------------------------ *)

(** The values that travel through the tools: the scalars of a warehouse
    row, [None], and the containers of repeated and record fields.  A
    [float] is kept as its IEEE 754 datum; a [dict] is the list of its
    items in insertion order. *)
Inductive pyval :=
| VNone
| VBool (b : bool)
| VInt (n : Z)
| VFloat (f : spec_float)
| VStr (s : string)
| VBytes (b : list Byte.byte)
| VDatetime (d : Datetime.datetime)
| VDate (d : Datetime.date)
| VTime (t : Datetime.time)
| VDecimal (d : Decimal.t)
| VList (l : list pyval)
| VDict (items : list (string * pyval)).

(** A [dict] with [str] keys, as the list of its items in insertion order;
    also the view [row.items()] of a result row. *)
Definition dict := list (string * pyval).

Inductive pyclass :=
| NoneType | bool_ | int_ | float_ | str_ | bytes_
| datetime_ | date_ | time_ | Decimal_ | list_ | dict_.

Definition pyclass_eqb (c d : pyclass) : bool :=
  match c, d with
  | NoneType, NoneType | bool_, bool_ | int_, int_ | float_, float_
  | str_, str_ | bytes_, bytes_ | datetime_, datetime_ | date_, date_
  | time_, time_ | Decimal_, Decimal_ | list_, list_ | dict_, dict_ => true
  | _, _ => false
  end.

(** [type(v)]. *)
Definition type_of (v : pyval) : pyclass :=
  match v with
  | VNone => NoneType
  | VBool _ => bool_
  | VInt _ => int_
  | VFloat _ => float_
  | VStr _ => str_
  | VBytes _ => bytes_
  | VDatetime _ => datetime_
  | VDate _ => date_
  | VTime _ => time_
  | VDecimal _ => Decimal_
  | VList _ => list_
  | VDict _ => dict_
  end.

(** [cls.__name__]. *)
Definition class_name (c : pyclass) : string :=
  match c with
  | NoneType => "NoneType"
  | bool_ => "bool"
  | int_ => "int"
  | float_ => "float"
  | str_ => "str"
  | bytes_ => "bytes"
  | datetime_ => "datetime"
  | date_ => "date"
  | time_ => "time"
  | Decimal_ => "Decimal"
  | list_ => "list"
  | dict_ => "dict"
  end.

(** [issubclass(c, d)]: every class is its own subclass, [bool] derives
    from [int] and [datetime.datetime] from [datetime.date]. *)
Definition issubclass (c d : pyclass) : bool :=
  pyclass_eqb c d
  || match c, d with
     | bool_, int_ => true
     | datetime_, date_ => true
     | _, _ => false
     end.

(** [isinstance(v, c)]. *)
Definition isinstance (v : pyval) (c : pyclass) : bool :=
  issubclass (type_of v) c.

(** [isinstance(v, (c1, ..., cn))]. *)
Definition isinstance_any (v : pyval) (cs : list pyclass) : bool :=
  existsb (isinstance v) cs.

(** [not d] for a [dict] or a [list]: true exactly when it is empty. *)
Definition is_empty {A : Type} (l : list A) : bool :=
  match l with
  | [] => true
  | _ :: _ => false
  end.

(** [d[k] = v]: replaces the value of an existing key in place, appends a
    new key. *)
Fixpoint dict_set (d : dict) (k : string) (v : pyval) : dict :=
  match d with
  | [] => [(k, v)]
  | (k', v') :: d' =>
      if String.eqb k' k then (k', v) :: d' else (k', v') :: dict_set d' k v
  end.

(** [d.get(k)]. *)
Fixpoint dict_get (d : dict) (k : string) : option pyval :=
  match d with
  | [] => None
  | (k', v) :: d' => if String.eqb k' k then Some v else dict_get d' k
  end.

Definition keys (d : dict) : list string := map fst d.

(** [l.append(x)]. *)
Definition list_append {A : Type} (l : list A) (x : A) : list A := (l ++ [x])%list.

(** [enumerate(l)]. *)
Definition enumerate {A : Type} (l : list A) : list (nat * A) :=
  combine (seq 0 (List.length l)) l.

(* ------------------------------------------------------------------ *)
(** ** Exceptions *)
(* ------------------------------------------------------------------ *)

(** An exception instance: the name of its class, [str(e)], and
    [isinstance(e, Exception)]: false for [KeyboardInterrupt], [SystemExit]
    and the other classes that derive from [BaseException] only. *)
Record pyexc := mkexc {
  exc_class : string;
  exc_str : string;
  exc_is_Exception : bool
}.

Definition TypeError (msg : string) : pyexc := mkexc "TypeError" msg true.
Definition ValueError (msg : string) : pyexc := mkexc "ValueError" msg true.
Definition AttributeError (msg : string) : pyexc := mkexc "AttributeError" msg true.

(* ------------------------------------------------------------------ *)
(** ** The warehouse client library *)
(* ------------------------------------------------------------------ *)

(** [bigquery.Client]: the handle remembers its project. *)
Record Client := mkClient { client_project : string }.

Record DatasetReference := mkDatasetRef { dr_project : string; dr_dataset : string }.

Record TableReference := mkTableRef { tr_dataset : DatasetReference; tr_table : string }.

(** [client.dataset(dataset_id)]: a local reference, no request. *)
Definition client_dataset (c : Client) (dataset_id : string) : DatasetReference :=
  mkDatasetRef (client_project c) dataset_id.

(** [dataset_ref.table(table_id)]. *)
Definition dataset_table (d : DatasetReference) (table_id : string) : TableReference :=
  mkTableRef d table_id.

(** An item of [client.list_tables(...)]. *)
Record TableListItem := mkTableListItem { table_id_of : string }.

Record SchemaField := mkSchemaField {
  field_name : string; field_type : string; field_mode : string
}.

Record Table := mkTable { schema : list SchemaField }.

(** [bigquery.ScalarQueryParameter(name, type_, value)]. *)
Record ScalarQueryParameter := mkParam {
  param_name : string; param_type : string; param_value : pyval
}.

(** A dispatched job: what [result()] does, and the attributes [errors]
    (the [message] of each entry; [None] is the empty list) and
    [num_dml_affected_rows]. *)
Record QueryJob := mkJob {
  job_rows : pyexc + list dict;
  job_errors : list string;
  num_dml_affected_rows : option Z
}.

(** An entry of the list returned by [insert_rows_json]: the row index and
    the text of the [errors] value as an f-string renders it. *)
Record InsertError := mkInsertError { ie_index : Z; ie_errors : string }.

(** [bigquery.QueryJobConfig(query_parameters=...)]: the configuration of a
    job, holding the bound parameters. *)
Record QueryJobConfig := mkQueryJobConfig {
  query_parameters : list ScalarQueryParameter
}.

(** The behaviour of the client library and of the service behind it: each
    call raises ([inl]) or returns ([inr]).  The constructor of a job
    configuration converts every bound parameter to its wire form and
    raises when a conversion fails ([Some]); otherwise the configuration
    holds the parameters it was given. *)
Record Warehouse := mkWarehouse {
  bq_Client : string -> pyexc + Client;
  bq_list_tables : Client -> DatasetReference -> pyexc + list TableListItem;
  bq_get_table : Client -> TableReference -> pyexc + Table;
  bq_query : Client -> string -> list ScalarQueryParameter -> pyexc + QueryJob;
  bq_insert_rows_json : Client -> TableReference -> list dict -> pyexc + list InsertError;
  bq_QueryJobConfig_raises : list ScalarQueryParameter -> option pyexc
}.

(* ------------------------------------------------------------------ *)
(** ** Effects *)
(* ------------------------------------------------------------------ *)

Inductive event :=
| EvClient (project : string)
| EvListTables (c : Client) (d : DatasetReference)
| EvGetTable (c : Client) (t : TableReference)
| EvQuery (c : Client) (sql : string) (params : list ScalarQueryParameter)
| EvJobResult (j : QueryJob)
| EvInsertRowsJson (c : Client) (t : TableReference) (rows : list dict)
| EvPrint (line : string).

Definition is_query (e : event) : bool :=
  match e with
  | EvQuery _ _ _ => true
  | _ => false
  end.

Inductive outcome (A : Type) :=
| Return (a : A)
| Raise (e : pyexc).

Arguments Return {A} a.
Arguments Raise {A} e.

(** A computation: the effects performed, in order, and how it ended. *)
Definition Tool (A : Type) : Type := list event * outcome A.

Definition trace {A : Type} (m : Tool A) : list event := fst m.
Definition result {A : Type} (m : Tool A) : outcome A := snd m.

Definition ret {A : Type} (a : A) : Tool A := ([], Return a).

Definition raise {A : Type} (e : pyexc) : Tool A := ([], Raise e).

Definition bind {A B : Type} (m : Tool A) (k : A -> Tool B) : Tool B :=
  match m with
  | (t, Return a) => let (t', o) := k a in ((t ++ t')%list, o)
  | (t, Raise e) => (t, Raise e)
  end.

(** [try: body  except Exception as e: handler(e)]: the handler runs for
    an instance of [Exception]; any other exception leaves the statement
    as it came. *)
Definition try_except {A : Type} (body : Tool A) (handler : pyexc -> Tool A) : Tool A :=
  match body with
  | (t, Return a) => (t, Return a)
  | (t, Raise e) =>
      if exc_is_Exception e
      then let (t', o) := handler e in ((t ++ t')%list, o)
      else (t, Raise e)
  end.

(** A library call: one event, then the answer of the oracle. *)
Definition call {A : Type} (ev : event) (answer : pyexc + A) : Tool A :=
  ([ev], match answer with
         | inl e => Raise e
         | inr a => Return a
         end).

Definition print (line : string) : Tool unit := ([EvPrint line], Return tt).

Declare Scope tool_scope.
Delimit Scope tool_scope with tool.

Notation "x <- m ;; k" := (bind m (fun x => k))
  (at level 100, m at next level, right associativity) : tool_scope.
Notation "' p <- m ;; k" := (bind m (fun x => match x with p => k end))
  (at level 100, p pattern, m at next level, right associativity) : tool_scope.
Notation "m ;; k" := (bind m (fun _ => k))
  (at level 100, right associativity) : tool_scope.

Open Scope tool_scope.

(** [for x in l: acc = f(acc, x)], stopping at the first exception. *)
Fixpoint for_each {A B : Type} (f : A -> B -> Tool A) (l : list B) (acc : A) : Tool A :=
  match l with
  | [] => ret acc
  | x :: l' => acc' <- f acc x ;; for_each f l' acc'
  end.

(* ------------------------------------------------------------------ *)
(** ** Method calls on values *)
(* ------------------------------------------------------------------ *)

(** [value.isoformat()]: the method of the runtime class of [value]; a
    value of another class has no such attribute. *)
Definition call_isoformat (value : pyval) : Tool string :=
  match value with
  | VDatetime d => ret (Datetime.datetime_isoformat d)
  | VDate d => ret (Datetime.date_isoformat d)
  | VTime t => ret (Datetime.time_isoformat t)
  | _ => raise (AttributeError ("'" ++ class_name (type_of value)
                                ++ "' object has no attribute 'isoformat'"))
  end.

(** [str(value)] where [value] is known to be a [Decimal]: the call of
    [Decimal.__str__] on it, which rejects a receiver of another class. *)
Definition call_Decimal_str (value : pyval) : Tool string :=
  match value with
  | VDecimal d => ret (Decimal.to_str d)
  | _ => raise (TypeError ("descriptor '__str__' requires a 'decimal.Decimal' object but received a '"
                           ++ class_name (type_of value) ++ "'"))
  end.

(** An f-string field holding [None] or an [int]. *)
Definition format_optional_int (n : option Z) : string :=
  match n with
  | None => "None"
  | Some z => PyStr.of_Z z
  end.

(* ------------------------------------------------------------------ *)
(** ** Module loading: the two required identifiers *)
(* ------------------------------------------------------------------ *)

(** The module globals once the module has loaded. *)
Record Globals := mkGlobals {
  DEFAULT_PROJECT_ID : string;
  DEFAULT_DATASET_ID : string
}.

(** Truth value of the result of [os.getenv]: [None] and [""] are false. *)
Definition getenv_truthy (v : option string) : bool :=
  match v with
  | None => false
  | Some s => PyStr.truthy s
  end.

Definition missing_identifiers_message : string :=
  "DEFAULT_PROJECT_ID and DEFAULT_DATASET_ID must be set in the .env file or environment.".

(** Lines 15-21 of the module: [getenv] is [os.getenv] once [load_dotenv()]
    has run.  The module body continues ([inr]) only past the check. *)
Definition read_identifiers (getenv : string -> option string) : pyexc + Globals :=
  let project := getenv "DEFAULT_PROJECT_ID" in
  let dataset := getenv "DEFAULT_DATASET_ID" in
  if negb (getenv_truthy project) || negb (getenv_truthy dataset)
  then inl (ValueError missing_identifiers_message)
  else
    match project, dataset with
    | Some p, Some d => inr (mkGlobals p d)
    | _, _ => inl (ValueError missing_identifiers_message)
    end.

(* ------------------------------------------------------------------ *)
(** ** The six tools *)
(* ------------------------------------------------------------------ *)

Section Tools.

Variable W : Warehouse.
Variable G : Globals.

Let PROJECT := DEFAULT_PROJECT_ID G.
Let DATASET := DEFAULT_DATASET_ID G.

(** [bigquery.Client(project=DEFAULT_PROJECT_ID)]. *)
Definition new_client : Tool Client :=
  call (EvClient PROJECT) (bq_Client W PROJECT).

(** [bigquery.QueryJobConfig(query_parameters=query_params)] (line 231): a
    local construction, no request. *)
Definition new_job_config (query_params : list ScalarQueryParameter)
  : Tool QueryJobConfig :=
  match bq_QueryJobConfig_raises W query_params with
  | Some e => raise e
  | None => ret (mkQueryJobConfig query_params)
  end.

Definition list_dataset_tables : Tool (list string) :=
  try_except
    (client <- new_client ;;
     let dataset_ref := client_dataset client DATASET in
     tables <- call (EvListTables client dataset_ref)
                    (bq_list_tables W client dataset_ref) ;;
     let table_ids := map table_id_of tables in
     if is_empty table_ids then
       (print ("No tables found in dataset " ++ PROJECT ++ "." ++ DATASET ++ ".") ;;
        ret [])
     else ret table_ids)
    (fun e =>
       print ("Error listing tables for " ++ PROJECT ++ "." ++ DATASET ++ ": "
              ++ exc_str e) ;;
       ret []).

(** The dictionary appended for one schema field. *)
Definition schema_entry (field : SchemaField) : dict :=
  [("name", VStr (field_name field));
   ("type", VStr (field_type field));
   ("mode", VStr (field_mode field))].

Definition get_bigquery_table_schema (table_id : string) : Tool (list dict) :=
  try_except
    (client <- new_client ;;
     let table_ref := dataset_table (client_dataset client DATASET) table_id in
     table <- call (EvGetTable client table_ref) (bq_get_table W client table_ref) ;;
     let schema_info :=
       fold_left (fun acc field => list_append acc (schema_entry field))
                 (schema table) [] in
     if is_empty schema_info then
       (print ("Schema not found or empty for table " ++ PROJECT ++ "." ++ DATASET
               ++ "." ++ table_id ++ ".") ;;
        ret [])
     else ret schema_info)
    (fun e =>
       print ("Error getting schema for " ++ PROJECT ++ "." ++ DATASET ++ "."
              ++ table_id ++ ": " ++ exc_str e) ;;
       ret []).

(** Body of the inner loop of [run_bigquery_sql_query] (lines 104-110). *)
Definition query_process_item (processed_row : dict) (item : string * pyval)
  : Tool dict :=
  let (key, value) := item in
  if isinstance_any value [date_; datetime_] then
    (s <- call_isoformat value ;; ret (dict_set processed_row key (VStr s)))
  else if isinstance value Decimal_ then
    (s <- call_Decimal_str value ;; ret (dict_set processed_row key (VStr s)))
  else ret (dict_set processed_row key value).

(** Body of the outer loop (lines 102-111). *)
Definition query_process_row (processed_rows : list dict) (row : dict)
  : Tool (list dict) :=
  processed_row <- for_each query_process_item row [] ;;
  ret (list_append processed_rows processed_row).

Definition run_bigquery_sql_query (query : string) : Tool (list dict) :=
  try_except
    (client <- new_client ;;
     query_job <- call (EvQuery client query []) (bq_query W client query []) ;;
     results <- call (EvJobResult query_job) (job_rows query_job) ;;
     processed_rows <- for_each query_process_row results [] ;;
     if is_empty processed_rows then
       (print ("Query returned no results: " ++ query) ;; ret [])
     else ret processed_rows)
    (fun e =>
       print ("Error running query '" ++ query ++ "': " ++ exc_str e) ;;
       ret []).

(** Body of the inner loop of [insert_bigquery_rows] (lines 148-154). *)
Definition insert_process_item (processed_row : dict) (item : string * pyval)
  : Tool dict :=
  let (key, value) := item in
  if isinstance value Decimal_ then
    (s <- call_Decimal_str value ;; ret (dict_set processed_row key (VStr s)))
  else if isinstance_any value [date_; datetime_; time_] then
    (s <- call_isoformat value ;; ret (dict_set processed_row key (VStr s)))
  else ret (dict_set processed_row key value).

Definition insert_process_row (processed_rows : list dict) (row : dict)
  : Tool (list dict) :=
  processed_row <- for_each insert_process_item row [] ;;
  ret (list_append processed_rows processed_row).

Definition insert_error_detail (error_entry : InsertError) : string :=
  "Row index " ++ PyStr.of_Z (ie_index error_entry) ++ ": " ++ ie_errors error_entry.

Definition insert_bigquery_rows (table_id : string) (rows : list dict) : Tool string :=
  if is_empty rows then ret "Error: 'rows' list cannot be empty."
  else
    try_except
      (client <- new_client ;;
       let table_ref := dataset_table (client_dataset client DATASET) table_id in
       processed_rows_for_json <- for_each insert_process_row rows [] ;;
       errors <- call (EvInsertRowsJson client table_ref processed_rows_for_json)
                      (bq_insert_rows_json W client table_ref processed_rows_for_json) ;;
       if is_empty errors then
         ret ("Successfully inserted " ++ PyStr.of_nat (List.length rows)
              ++ " rows into table " ++ table_id ++ ".")
       else
         let error_details :=
           fold_left (fun acc error_entry => list_append acc (insert_error_detail error_entry))
                     errors [] in
         ret ("Error inserting rows into table " ++ table_id ++ ": "
              ++ PyStr.join "; " error_details))
      (fun e => ret ("Error inserting rows into table " ++ table_id ++ ": " ++ exc_str e)).

(** The chain of [isinstance] tests of lines 205-214, in source order;
    [None] is the final [bq_type is None]. *)
Definition infer_bq_type (val : pyval) : option string :=
  if isinstance val str_ then Some "STRING"
  else if isinstance val bytes_ then Some "BYTES"
  else if isinstance val int_ then Some "INT64"
  else if isinstance val float_ then Some "FLOAT64"
  else if isinstance val bool_ then Some "BOOL"
  else if isinstance val datetime_ then Some "TIMESTAMP"
  else if isinstance val date_ then Some "DATE"
  else if isinstance val time_ then Some "TIME"
  else if isinstance val Decimal_ then Some "NUMERIC"
  else None.

Definition unsupported_type_message (col : string) (val : pyval) : string :=
  "Unsupported data type '" ++ class_name (type_of val) ++ "' for column '" ++ col
  ++ "'. " ++ "Supported types: str, bytes, int, float, bool, datetime.datetime, "
  ++ "datetime.date, datetime.time, Decimal.".

(** Body of the loop over [enumerate(set_values.items())] (lines 199-222);
    the accumulator is the pair of [set_clauses] and [query_params]. *)
Definition update_loop_body (acc : list string * list ScalarQueryParameter)
                            (item : nat * (string * pyval))
  : Tool (list string * list ScalarQueryParameter) :=
  let '(set_clauses, query_params) := acc in
  let '(idx, (col, val)) := item in
  let param_name := "p_set_val_" ++ PyStr.of_nat idx in
  let set_clauses := list_append set_clauses ("`" ++ col ++ "` = @" ++ param_name) in
  match infer_bq_type val with
  | None => raise (TypeError (unsupported_type_message col val))
  | Some bq_type =>
      ret (set_clauses, list_append query_params (mkParam param_name bq_type val))
  end.

Definition update_bigquery_records (table_id : string) (set_values : dict)
                                   (where_clause : string) : Tool string :=
  try_except
    (client <- new_client ;;
     if is_empty set_values then ret "Error: set_values dictionary cannot be empty."
     else
       ' (set_clauses, query_params) <-
          for_each update_loop_body (enumerate set_values) ([], []) ;;
       let sql_set_clause := PyStr.join ", " set_clauses in
       let full_table_name :=
         "`" ++ PROJECT ++ "." ++ DATASET ++ "." ++ table_id ++ "`" in
       let query := "UPDATE " ++ full_table_name ++ " SET " ++ sql_set_clause
                    ++ " WHERE " ++ where_clause in
       job_config <- new_job_config query_params ;;
       query_job <- call (EvQuery client query (query_parameters job_config))
                         (bq_query W client query (query_parameters job_config)) ;;
       _ <- call (EvJobResult query_job) (job_rows query_job) ;;
       if negb (is_empty (job_errors query_job)) then
         let error_details := PyStr.join "; " (job_errors query_job) in
         ret ("Error updating table " ++ table_id ++ ": " ++ error_details)
       else
         ret ("Successfully updated "
              ++ format_optional_int (num_dml_affected_rows query_job)
              ++ " rows in table " ++ table_id ++ "."))
    (fun e => ret ("Error updating table " ++ table_id ++ ": " ++ exc_str e)).

Definition delete_refusal : string :=
  "Error: where_clause cannot be empty. To delete all rows, explicitly provide a condition like '1=1' (use with extreme caution).".

Definition delete_bigquery_records (table_id : string) (where_clause : string)
  : Tool string :=
  if negb (PyStr.truthy where_clause) || negb (PyStr.truthy (PyStr.strip where_clause))
  then ret delete_refusal
  else
    try_except
      (client <- new_client ;;
       let full_table_name :=
         "`" ++ PROJECT ++ "." ++ DATASET ++ "." ++ table_id ++ "`" in
       let query := "DELETE FROM " ++ full_table_name ++ " WHERE " ++ where_clause in
       query_job <- call (EvQuery client query []) (bq_query W client query []) ;;
       _ <- call (EvJobResult query_job) (job_rows query_job) ;;
       if negb (is_empty (job_errors query_job)) then
         let error_details := PyStr.join "; " (job_errors query_job) in
         ret ("Error deleting from table " ++ table_id ++ ": " ++ error_details)
       else
         ret ("Successfully deleted "
              ++ format_optional_int (num_dml_affected_rows query_job)
              ++ " rows from table " ++ table_id ++ "."))
      (fun e => ret ("Error deleting from table " ++ table_id ++ ": " ++ exc_str e)).

End Tools.

(* ------------------------------------------------------------------ *)
(** ** The loaded module *)
(* ------------------------------------------------------------------ *)

(** The module object once its body has run: the two globals and the six
    functions, each closed over the globals it reads. *)
Record AgentModule := mkModule {
  module_globals : Globals;
  module_list_dataset_tables : Tool (list string);
  module_get_bigquery_table_schema : string -> Tool (list dict);
  module_run_bigquery_sql_query : string -> Tool (list dict);
  module_insert_bigquery_rows : string -> list dict -> Tool string;
  module_update_bigquery_records : string -> dict -> string -> Tool string;
  module_delete_bigquery_records : string -> string -> Tool string
}.

(** Execution of the module body: the check of lines 18-21 first, the
    [def] statements after it.  An exception raised by the check ends the
    import and leaves no module. *)
Definition load_module (W : Warehouse) (getenv : string -> option string)
  : pyexc + AgentModule :=
  match read_identifiers getenv with
  | inl e => inl e
  | inr G =>
      inr (mkModule G
             (list_dataset_tables W G)
             (get_bigquery_table_schema W G)
             (run_bigquery_sql_query W G)
             (insert_bigquery_rows W G)
             (update_bigquery_records W G)
             (delete_bigquery_records W G))
  end.

(* ------------------------------------------------------------------ *)
(** ** Vocabulary of the properties *)
(* ------------------------------------------------------------------ *)

(** The nine classes named by the error message of [update_bigquery_records]. *)
Definition supported_class (c : pyclass) : bool :=
  match c with
  | str_ | bytes_ | int_ | float_ | bool_ | datetime_ | date_ | time_ | Decimal_ => true
  | NoneType | list_ | dict_ => false
  end.

(** The warehouse type the specification assigns to each supported class. *)
Definition spec_bq_type (c : pyclass) : option string :=
  match c with
  | str_ => Some "STRING"
  | bytes_ => Some "BYTES"
  | int_ => Some "INT64"
  | float_ => Some "FLOAT64"
  | bool_ => Some "BOOL"
  | datetime_ => Some "TIMESTAMP"
  | date_ => Some "DATE"
  | time_ => Some "TIME"
  | Decimal_ => Some "NUMERIC"
  | NoneType | list_ | dict_ => None
  end.

Definition unsupported_item (item : string * pyval) : bool :=
  negb (supported_class (type_of (snd item))).

(** [f] applied to every value of a dictionary, keys and order kept. *)
Definition map_values (f : pyval -> pyval) (d : dict) : dict :=
  map (fun item => (fst item, f (snd item))) d.

(** What the specification says of a value returned by
    [run_bigquery_sql_query]: dates and timestamps as ISO-8601 text,
    decimals as decimal text, anything else as it is. *)
Definition spec_query_value (v : pyval) : pyval :=
  match v with
  | VDate d => VStr (Datetime.date_isoformat d)
  | VDatetime d => VStr (Datetime.datetime_isoformat d)
  | VDecimal d => VStr (Decimal.to_str d)
  | _ => v
  end.

(** What the specification says of a value sent by [insert_bigquery_rows]:
    date, time and decimal values as their text. *)
Definition spec_insert_value (v : pyval) : pyval :=
  match v with
  | VDate d => VStr (Datetime.date_isoformat d)
  | VDatetime d => VStr (Datetime.datetime_isoformat d)
  | VTime t => VStr (Datetime.time_isoformat t)
  | VDecimal d => VStr (Decimal.to_str d)
  | _ => v
  end.

(** The name of the [idx]-th bound parameter. *)
Definition spec_param_name (idx : nat) : string := "p_set_val_" ++ PyStr.of_nat idx.

(** The [idx]-th assignment of the SET list: the column between backticks
    and the placeholder of its parameter. *)
Definition spec_set_clause (idx : nat) (col : string) : string :=
  "`" ++ col ++ "` = @" ++ spec_param_name idx.

Fixpoint spec_set_clauses (idx : nat) (cols : list string) : list string :=
  match cols with
  | [] => []
  | col :: cols' => spec_set_clause idx col :: spec_set_clauses (S idx) cols'
  end.

(** The statement text of the specification; it depends on the column
    names, never on the values. *)
Definition spec_update_sql (G : Globals) (table_id : string) (cols : list string)
                           (where_clause : string) : string :=
  "UPDATE `" ++ DEFAULT_PROJECT_ID G ++ "." ++ DEFAULT_DATASET_ID G ++ "." ++ table_id
  ++ "` SET " ++ PyStr.join ", " (spec_set_clauses 0 cols)
  ++ " WHERE " ++ where_clause.

(** The parameters bound for the items of [set_values], numbered from [idx]. *)
Fixpoint spec_update_params (type_for : pyval -> option string) (idx : nat)
                            (items : dict) : list ScalarQueryParameter :=
  match items with
  | [] => []
  | (_, val) :: items' =>
      mkParam (spec_param_name idx)
              (match type_for val with
               | Some ty => ty
               | None => ""
               end) val
      :: spec_update_params type_for (S idx) items'
  end.




(** One of the two identifiers is unset or empty in the environment. *)
Definition identifier_missing (getenv : string -> option string) : Prop :=
  getenv "DEFAULT_PROJECT_ID" = None \/ getenv "DEFAULT_PROJECT_ID" = Some ""
  \/ getenv "DEFAULT_DATASET_ID" = None \/ getenv "DEFAULT_DATASET_ID" = Some "".

(* ------------------------------------------------------------------ *)
(** ** The test block of the script: the trial update *)
(* ------------------------------------------------------------------ *)

(** The readings of the clock used by the test block: [datetime.date.today()],
    [datetime.datetime.now()] and [datetime.datetime.now(datetime.timezone.utc)]. *)
Record Clock := mkClock {
  clock_today : Datetime.date;
  clock_now : Datetime.datetime;
  clock_now_utc : Datetime.datetime
}.

(** [t.replace(microsecond=0)]. *)
Definition time_replace_microsecond_0 (t : Datetime.time) : Datetime.time :=
  Datetime.mktime (Datetime.hour t) (Datetime.minute t) (Datetime.second t) 0
                  (Datetime.utcoffset t).

(** [d.replace(microsecond=0)]. *)
Definition datetime_replace_microsecond_0 (d : Datetime.datetime) : Datetime.datetime :=
  Datetime.mkdatetime (Datetime.dt_date d)
                      (time_replace_microsecond_0 (Datetime.dt_time d)).

(** [d.time()]: the time of day, without the [tzinfo]. *)
Definition datetime_time (d : Datetime.datetime) : Datetime.time :=
  let t := Datetime.dt_time d in
  Datetime.mktime (Datetime.hour t) (Datetime.minute t) (Datetime.second t)
                  (Datetime.microsecond t) None.

(** [x in (s1, ..., sn)] for strings. *)
Definition str_in (x : string) (l : list string) : bool :=
  existsb (String.eqb x) l.

(** The float [123.45]. *)
Definition float_123_45 : spec_float := S754_finite false 8687021468732621 (-46).

(** Lines 388-410: the value the test block writes into the first column,
    chosen from the type of that column. *)
Definition dummy_value (clock : Clock) (first_field_type : string) : pyval :=
  if str_in first_field_type ["INTEGER"; "INT64"; "INT"; "SMALLINT"; "BIGINT"]
  then VInt 12345
  else if str_in first_field_type ["FLOAT"; "FLOAT64"; "DOUBLE"; "REAL"]
  then VFloat float_123_45
  else if str_in first_field_type ["NUMERIC"; "BIGNUMERIC"]
  then VDecimal (Decimal.mk false "123456" (Decimal.Fin (-3)))
  else if String.eqb first_field_type "BOOLEAN" then VBool true
  else if String.eqb first_field_type "DATE" then VDate (clock_today clock)
  else if String.eqb first_field_type "DATETIME"
  then VDatetime (datetime_replace_microsecond_0 (clock_now clock))
  else if String.eqb first_field_type "TIMESTAMP"
  then VDatetime (datetime_replace_microsecond_0 (clock_now_utc clock))
  else if String.eqb first_field_type "BYTES"
  then VBytes (list_byte_of_string "testbytes")
  else if String.eqb first_field_type "TIME"
  then VTime (time_replace_microsecond_0 (datetime_time (clock_now clock)))
  else if String.eqb first_field_type "STRING" then VStr "test_string_update"
  else VStr "test_update_val".

(** Lines 415-419: the call of the tool on the first column of the table
    under test, with a clause that selects no row. *)
Definition trial_update (W : Warehouse) (G : Globals) (clock : Clock)
                        (actual_test_table_id : string) (first_field : SchemaField)
  : Tool string :=
  update_bigquery_records W G actual_test_table_id
    [(field_name first_field, dummy_value clock (field_type first_field))]
    "1=0".

(* ------------------------------------------------------------------ *)
(** ** More vocabulary *)
(* ------------------------------------------------------------------ *)

(** The outcome of a [try ... except Exception] whose body raised [e] and
    whose handler ends as [o]. *)
Definition caught {A : Type} (e : pyexc) (o : outcome A) : outcome A :=
  if exc_is_Exception e then o else Raise e.

(** [e] is what some call of the client library raises. *)
Inductive raised_by_library (W : Warehouse) (e : pyexc) : Prop :=
| raised_by_Client (project : string) :
    bq_Client W project = inl e -> raised_by_library W e
| raised_by_list_tables (c : Client) (d : DatasetReference) :
    bq_list_tables W c d = inl e -> raised_by_library W e
| raised_by_get_table (c : Client) (t : TableReference) :
    bq_get_table W c t = inl e -> raised_by_library W e
| raised_by_query (c : Client) (q : string) (ps : list ScalarQueryParameter) :
    bq_query W c q ps = inl e -> raised_by_library W e
| raised_by_result (c : Client) (q : string) (ps : list ScalarQueryParameter)
                   (job : QueryJob) :
    bq_query W c q ps = inr job -> job_rows job = inl e -> raised_by_library W e
| raised_by_insert_rows_json (c : Client) (t : TableReference) (rows : list dict) :
    bq_insert_rows_json W c t rows = inl e -> raised_by_library W e
| raised_by_QueryJobConfig (ps : list ScalarQueryParameter) :
    bq_QueryJobConfig_raises W ps = Some e -> raised_by_library W e.

Definition is_client (e : event) : bool :=
  match e with
  | EvClient _ => true
  | _ => false
  end.

Definition is_insert (e : event) : bool :=
  match e with
  | EvInsertRowsJson _ _ _ => true
  | _ => false
  end.

(** A request that can change or read table data: a statement or a
    streaming insert. *)
Definition is_data_request (e : event) : bool := is_query e || is_insert e.

(** No effect of [m] satisfies [p]. *)
Definition avoids {A : Type} (p : event -> bool) (m : Tool A) : Prop :=
  Forall (fun ev => p ev = false) (trace m).

(** A run constructs no client, or constructs one for the configured
    project before anything else and no other. *)
Definition one_client_first (G : Globals) {A : Type} (m : Tool A) : Prop :=
  trace m = []
  \/ exists rest,
       trace m = EvClient (DEFAULT_PROJECT_ID G) :: rest
       /\ Forall (fun ev => is_client ev = false) rest.

(** The data requests of a run, in order. *)
Definition data_requests {A : Type} (m : Tool A) : list event :=
  filter is_data_request (trace m).


(** The rows as the inner loop stores them, whatever they hold. *)
Definition stored_rows (rows : list dict) : list dict :=
  map (fun row =>
         fold_left (fun d item => dict_set d (fst item) (spec_insert_value (snd item)))
                   row []) rows.

(** The text of the DELETE statement. *)
Definition spec_delete_sql (G : Globals) (table_id where_clause : string) : string :=
  "DELETE FROM `" ++ DEFAULT_PROJECT_ID G ++ "." ++ DEFAULT_DATASET_ID G ++ "."
  ++ table_id ++ "` WHERE " ++ where_clause.

(** No value of the row is a native date, time, timestamp or decimal. *)
Definition json_ready (row : dict) : Prop :=
  forall key v, In (key, v) row ->
    type_of v <> date_ /\ type_of v <> datetime_ /\ type_of v <> time_
    /\ type_of v <> Decimal_.

(* ------------------------------------------------------------------ *)
(** ** Sample warehouses and inputs *)
(* ------------------------------------------------------------------ *)

Module Samples.

Definition G0 : Globals := mkGlobals "proj" "ds".

Definition done (rows : list dict) : QueryJob := mkJob (inr rows) [] (Some 0%Z).

(** Every call succeeds; a query yields [rows]. *)
Definition serving (rows : list dict) : Warehouse :=
  mkWarehouse
    (fun project => inr (mkClient project))
    (fun _ _ => inr [mkTableListItem "orders"])
    (fun _ _ => inr (mkTable [mkSchemaField "id" "INTEGER" "REQUIRED"]))
    (fun _ _ _ => inr (done rows))
    (fun _ _ _ => inr [])
    (fun _ => None).

(** A dataset without tables, tables without columns, queries without rows. *)
Definition vacant : Warehouse :=
  mkWarehouse
    (fun project => inr (mkClient project))
    (fun _ _ => inr [])
    (fun _ _ => inr (mkTable []))
    (fun _ _ _ => inr (done []))
    (fun _ _ _ => inr [])
    (fun _ => None).

Definition unavailable : pyexc :=
  mkexc "ServiceUnavailable" "503 backend unavailable" true.

(** The client is constructed, every request raises. *)
Definition failing : Warehouse :=
  mkWarehouse
    (fun project => inr (mkClient project))
    (fun _ _ => inl unavailable)
    (fun _ _ => inl unavailable)
    (fun _ _ _ => inl unavailable)
    (fun _ _ _ => inl unavailable)
    (fun _ => None).

Definition no_credentials : pyexc :=
  mkexc "DefaultCredentialsError" "Your default credentials were not found." true.

(** No credentials on the host: the client constructor raises. *)
Definition unauthenticated : Warehouse :=
  mkWarehouse
    (fun _ => inl no_credentials)
    (fun _ _ => inl unavailable)
    (fun _ _ => inl unavailable)
    (fun _ _ _ => inl unavailable)
    (fun _ _ _ => inl unavailable)
    (fun _ => None).

Definition noon : Datetime.time := Datetime.mktime 12 0 0 0 None.

Definition new_year : Datetime.date := Datetime.mkdate 2000 1 1.

Definition new_year_utc : Datetime.datetime :=
  Datetime.mkdatetime new_year (Datetime.mktime 0 0 0 0 (Some 0%Z)).

Definition price : Decimal.t := Decimal.mk false "1999" (Decimal.Fin (-2)).

Definition sample_row : dict :=
  [("day", VDate new_year); ("at", VDatetime new_year_utc);
   ("price", VDecimal price); ("opens", VTime noon); ("qty", VInt 3)].

Definition env_of (project dataset : option string) (name : string) : option string :=
  if String.eqb name "DEFAULT_PROJECT_ID" then project
  else if String.eqb name "DEFAULT_DATASET_ID" then dataset
  else None.

End Samples.

Module Cases.

Definition clock : Clock :=
  mkClock Samples.new_year
          (Datetime.mkdatetime Samples.new_year (Datetime.mktime 9 30 15 250 None))
          (Datetime.mkdatetime Samples.new_year (Datetime.mktime 8 30 15 250 (Some 0%Z))).

Definition id_field : SchemaField := mkSchemaField "id" "INTEGER" "REQUIRED".
Definition name_field : SchemaField := mkSchemaField "name" "STRING" "NULLABLE".

(** A table with two columns; streaming inserts are rejected row by row. *)
Definition rejecting : Warehouse :=
  mkWarehouse
    (fun project => inr (mkClient project))
    (fun _ _ => inr [mkTableListItem "orders"; mkTableListItem "users"])
    (fun _ _ => inr (mkTable [id_field; name_field]))
    (fun _ _ _ => inr (mkJob (inr []) ["quota exceeded"; "try later"] None))
    (fun _ _ _ => inr [mkInsertError 0 "[{'reason': 'invalid'}]";
                       mkInsertError 2 "[{'reason': 'stopped'}]"])
    (fun _ => None).

(** The user interrupts the program while a request is pending. *)
Definition interrupt : pyexc := mkexc "KeyboardInterrupt" "" false.

Definition interrupted : Warehouse :=
  mkWarehouse
    (fun project => inr (mkClient project))
    (fun _ _ => inl interrupt)
    (fun _ _ => inl interrupt)
    (fun _ _ _ => inl interrupt)
    (fun _ _ _ => inl interrupt)
    (fun _ => None).

Definition out_of_range : pyexc := mkexc "OverflowError" "date value out of range" true.

(** A timestamp of year 1 ahead of UTC: its conversion to UTC leaves the
    range of dates. *)
Definition first_day_east : Datetime.datetime :=
  Datetime.mkdatetime (Datetime.mkdate 1 1 1)
                      (Datetime.mktime 0 0 0 0 (Some 3600000000%Z)).

(** Every call succeeds, but no job configuration can hold [first_day_east]. *)
Definition strict_config : Warehouse :=
  mkWarehouse
    (fun project => inr (mkClient project))
    (fun _ _ => inr [mkTableListItem "orders"])
    (fun _ _ => inr (mkTable [id_field]))
    (fun _ _ _ => inr (Samples.done []))
    (fun _ _ _ => inr [])
    (fun params =>
       if existsb (fun p => match param_value p with
                            | VDatetime d =>
                                (Datetime.year (Datetime.dt_date d) =? 1)%N
                                && match Datetime.utcoffset (Datetime.dt_time d) with
                                   | Some off => (0 <? off)%Z
                                   | None => false
                                   end
                            | _ => false
                            end) params
       then Some out_of_range
       else None).

End Cases.

(* ------------------------------------------------------------------ *)
(** ** Runs on the sample warehouses *)
(* ------------------------------------------------------------------ *)

Example date_iso_2000 :
  Datetime.date_isoformat (Datetime.mkdate 2000 1 1) = "2000-01-01".
Proof. reflexivity. Qed.

Example datetime_iso_utc :
  Datetime.datetime_isoformat
    (Datetime.mkdatetime (Datetime.mkdate 2024 2 29)
                         (Datetime.mktime 13 5 0 0 (Some 0%Z)))
  = "2024-02-29T13:05:00+00:00".
Proof. reflexivity. Qed.

Example time_iso_us :
  Datetime.time_isoformat (Datetime.mktime 7 8 9 250 None) = "07:08:09.000250".
Proof. reflexivity. Qed.

Example decimal_str_123_456 :
  Decimal.to_str (Decimal.mk false "123456" (Decimal.Fin (-3))) = "123.456".
Proof. reflexivity. Qed.

Example decimal_str_sci :
  Decimal.to_str (Decimal.mk true "1" (Decimal.Fin 3)) = "-1E+3".
Proof. reflexivity. Qed.

Example decimal_str_small :
  Decimal.to_str (Decimal.mk false "5" (Decimal.Fin (-8))) = "5E-8".
Proof. reflexivity. Qed.

Example offset_negative :
  Datetime.format_offset (Some (-19800000000)%Z) = "-05:30".
Proof. reflexivity. Qed.

Example query_sample_row :
  run_bigquery_sql_query (Samples.serving [Samples.sample_row]) Samples.G0 "SELECT 1"
  = ([EvClient "proj";
      EvQuery (mkClient "proj") "SELECT 1" [];
      EvJobResult (Samples.done [Samples.sample_row])],
     Return [[("day", VStr "2000-01-01"); ("at", VStr "2000-01-01T00:00:00+00:00");
              ("price", VStr "19.99"); ("opens", VTime Samples.noon); ("qty", VInt 3)]]).
Proof. reflexivity. Qed.

Example insert_sample_row :
  insert_bigquery_rows (Samples.serving []) Samples.G0 "orders" [Samples.sample_row]
  = ([EvClient "proj";
      EvInsertRowsJson (mkClient "proj")
        (mkTableRef (mkDatasetRef "proj" "ds") "orders")
        [[("day", VStr "2000-01-01"); ("at", VStr "2000-01-01T00:00:00+00:00");
          ("price", VStr "19.99"); ("opens", VStr "12:00:00"); ("qty", VInt 3)]]],
     Return "Successfully inserted 1 rows into table orders.").
Proof. reflexivity. Qed.

Example update_two_columns :
  update_bigquery_records (Samples.serving []) Samples.G0 "orders"
    [("status", VStr "done"); ("qty", VInt 4)] "id = 7"
  = ([EvClient "proj";
      EvQuery (mkClient "proj")
        "UPDATE `proj.ds.orders` SET `status` = @p_set_val_0, `qty` = @p_set_val_1 WHERE id = 7"
        [mkParam "p_set_val_0" "STRING" (VStr "done");
         mkParam "p_set_val_1" "INT64" (VInt 4)];
      EvJobResult (Samples.done [])],
     Return "Successfully updated 0 rows in table orders.").
Proof. reflexivity. Qed.

Example list_failing :
  list_dataset_tables Samples.failing Samples.G0
  = ([EvClient "proj";
      EvListTables (mkClient "proj") (mkDatasetRef "proj" "ds");
      EvPrint "Error listing tables for proj.ds: 503 backend unavailable"],
     Return []).
Proof. reflexivity. Qed.

Example delete_runs :
  delete_bigquery_records (Samples.serving []) Samples.G0 "orders" "1=0"
  = ([EvClient "proj";
      EvQuery (mkClient "proj") "DELETE FROM `proj.ds.orders` WHERE 1=0" [];
      EvJobResult (Samples.done [])],
     Return "Successfully deleted 0 rows from table orders.").
Proof. reflexivity. Qed.

(* ------------------------------------------------------------------ *)
(** ** The computation monad *)
(* ------------------------------------------------------------------ *)

Arguments bind : simpl never.
Arguments try_except : simpl never.
Arguments call : simpl never.
Arguments ret : simpl never.
Arguments raise : simpl never.
Arguments print : simpl never.

Section ToolLaws.

Context {A B : Type}.

Lemma bind_ret (a : A) (k : A -> Tool B) : bind (ret a) k = k a.
Proof. unfold bind, ret. destruct (k a) as [t o]. reflexivity. Qed.

Lemma bind_raise (e : pyexc) (k : A -> Tool B) : bind (raise e) k = raise e.
Proof. reflexivity. Qed.

Lemma bind_call_ok (ev : event) (a : A) (k : A -> Tool B) :
  bind (call ev (inr a)) k = (ev :: trace (k a), result (k a)).
Proof. unfold bind, call, trace, result. destruct (k a). reflexivity. Qed.

Lemma bind_call_raises (ev : event) (e : pyexc) (k : A -> Tool B) :
  bind (call ev (inl e)) k = ([ev], Raise e).
Proof. reflexivity. Qed.

Lemma try_except_return (t : list event) (a : A) (handler : pyexc -> Tool A) :
  try_except (t, Return a) handler = (t, Return a).
Proof. reflexivity. Qed.

Lemma try_except_raise (t : list event) (e : pyexc) (handler : pyexc -> Tool A) :
  exc_is_Exception e = true ->
  try_except (t, Raise e) handler
  = ((t ++ trace (handler e))%list, result (handler e)).
Proof.
  intros He. unfold try_except, trace, result. rewrite He.
  destruct (handler e). reflexivity.
Qed.

Lemma try_except_pass (t : list event) (e : pyexc) (handler : pyexc -> Tool A) :
  exc_is_Exception e = false ->
  try_except (t, Raise e) handler = (t, Raise e).
Proof. intros He. unfold try_except. rewrite He. reflexivity. Qed.

(** Both cases at once. *)
Lemma try_except_raised (t : list event) (e : pyexc) (handler : pyexc -> Tool A) :
  try_except (t, Raise e) handler
  = if exc_is_Exception e
    then ((t ++ trace (handler e))%list, result (handler e))
    else (t, Raise e).
Proof.
  destruct (exc_is_Exception e) eqn:He.
  - apply try_except_raise, He.
  - apply try_except_pass, He.
Qed.

(** The effects of the body come first in the effects of the [try]. *)
Lemma try_except_trace (body : Tool A) (handler : pyexc -> Tool A) :
  exists rest, trace (try_except body handler) = (trace body ++ rest)%list.
Proof.
  destruct body as [t [a | e]].
  - exists []. simpl. rewrite app_nil_r. reflexivity.
  - rewrite try_except_raised. destruct (exc_is_Exception e).
    + eexists. reflexivity.
    + exists []. simpl. rewrite app_nil_r. reflexivity.
Qed.


End ToolLaws.

(* ------------------------------------------------------------------ *)
(** ** Whitespace *)
(* ------------------------------------------------------------------ *)

Lemma lstrip_all_space (s : string) :
  PyStr.all_space s = true -> PyStr.lstrip s = "".
Proof.
  induction s as [| c s IH]; simpl; intros H.
  - reflexivity.
  - apply andb_true_iff in H. destruct H as [Hc Hs]. rewrite Hc. auto.
Qed.

Lemma strip_all_space (s : string) :
  PyStr.all_space s = true -> PyStr.strip s = "".
Proof. intros H. unfold PyStr.strip. rewrite lstrip_all_space by exact H. reflexivity. Qed.

(** The guard of [delete_bigquery_records] fires on nothing else: a
    clause with a character that is not whitespace survives [strip]. *)
Lemma rstrip_empty_all_space (s : string) :
  PyStr.rstrip s = "" -> PyStr.all_space s = true.
Proof.
  induction s as [| c s IH]; simpl; intros H.
  - reflexivity.
  - destruct (PyStr.rstrip s) eqn:E.
    + destruct (PyStr.isspace c); [simpl; auto | discriminate].
    + discriminate.
Qed.

Lemma lstrip_keeps_blankness (s : string) :
  PyStr.all_space (PyStr.lstrip s) = true -> PyStr.all_space s = true.
Proof.
  induction s as [| c s IH]; simpl; intros H.
  - reflexivity.
  - destruct (PyStr.isspace c) eqn:E; simpl in *.
    + auto.
    + rewrite E in H. discriminate.
Qed.

Lemma strip_empty_iff (s : string) :
  PyStr.strip s = "" <-> PyStr.all_space s = true.
Proof.
  split.
  - intros H. apply lstrip_keeps_blankness, rstrip_empty_all_space, H.
  - apply strip_all_space.
Qed.

(* ------------------------------------------------------------------ *)
(** ** Input guards of the write tools *)
(* ------------------------------------------------------------------ *)

(** C7. For every warehouse, configuration and [table_id],
    [insert_bigquery_rows] called with an empty [rows] list returns the
    literal error string and performs no effect at all: no client is
    constructed and no request is sent. *)
Theorem insert_empty_rows_refused (W : Warehouse) (G : Globals) (table_id : string) :
  insert_bigquery_rows W G table_id []
  = ([], Return "Error: 'rows' list cannot be empty.").
Proof.
  unfold insert_bigquery_rows. cbn [is_empty].
  reflexivity.
Qed.

(** C8. For every [table_id], [delete_bigquery_records] called with a
    [where_clause] that is empty or made of whitespace only returns the
    literal refusal string and performs no effect at all: no client is
    constructed and no request is sent. *)
Theorem delete_blank_where_refused
  (W : Warehouse) (G : Globals) (table_id where_clause : string) :
  where_clause = "" \/ PyStr.all_space where_clause = true ->
  delete_bigquery_records W G table_id where_clause
  = ([], Return "Error: where_clause cannot be empty. To delete all rows, explicitly provide a condition like '1=1' (use with extreme caution).").
Proof.
  intros H. unfold delete_bigquery_records.
  assert (Hs : PyStr.strip where_clause = "").
  { destruct H as [-> | H]; [reflexivity | apply strip_all_space, H]. }
  rewrite Hs. simpl. rewrite orb_true_r. reflexivity.
Qed.

Lemma delete_blank_where_refused_witness :
  (" " ++ String (ascii_of_nat 9) (String (ascii_of_nat 10) " ") = ""
   \/ PyStr.all_space (" " ++ String (ascii_of_nat 9) (String (ascii_of_nat 10) " ")) = true)
  /\ delete_bigquery_records (Samples.serving []) Samples.G0 "orders"
       (" " ++ String (ascii_of_nat 9) (String (ascii_of_nat 10) " "))
     = ([], Return "Error: where_clause cannot be empty. To delete all rows, explicitly provide a condition like '1=1' (use with extreme caution).").
Proof.
  split.
  - right. reflexivity.
  - apply (delete_blank_where_refused (Samples.serving []) Samples.G0 "orders").
    right. reflexivity.
Defined.

(** The refusal is the only outcome without a client: any other clause
    reaches the client constructor. *)
Lemma delete_other_where_runs (W : Warehouse) (G : Globals) (table_id where_clause : string) :
  PyStr.all_space where_clause = false ->
  exists rest,
    trace (delete_bigquery_records W G table_id where_clause)
    = EvClient (DEFAULT_PROJECT_ID G) :: rest.
Proof.
  intros H. unfold delete_bigquery_records.
  assert (Hw : PyStr.truthy where_clause = true).
  { destruct where_clause; [discriminate | reflexivity]. }
  assert (Hs : PyStr.truthy (PyStr.strip where_clause) = true).
  { destruct (PyStr.strip where_clause) eqn:E; [| reflexivity].
    apply strip_empty_iff in E. congruence. }
  rewrite Hw, Hs. cbn [negb orb].
  match goal with |- context [try_except ?b ?h] =>
    destruct (try_except_trace b h) as [rest Hrest]; rewrite Hrest
  end.
  unfold new_client.
  destruct (bq_Client W (DEFAULT_PROJECT_ID G)) as [e | c].
  - rewrite bind_call_raises. eexists. reflexivity.
  - rewrite bind_call_ok. eexists. reflexivity.
Qed.

(* ------------------------------------------------------------------ *)
(** ** Module loading *)
(* ------------------------------------------------------------------ *)

Lemma read_identifiers_missing (getenv : string -> option string) :
  identifier_missing getenv ->
  read_identifiers getenv = inl (ValueError missing_identifiers_message).
Proof.
  intros H. unfold read_identifiers.
  destruct H as [H | [H | [H | H]]]; rewrite H; simpl;
    try reflexivity; rewrite orb_true_r; reflexivity.
Qed.

Lemma read_identifiers_present (getenv : string -> option string) (G : Globals) :
  read_identifiers getenv = inr G ->
  getenv "DEFAULT_PROJECT_ID" = Some (DEFAULT_PROJECT_ID G)
  /\ getenv "DEFAULT_DATASET_ID" = Some (DEFAULT_DATASET_ID G)
  /\ DEFAULT_PROJECT_ID G <> "" /\ DEFAULT_DATASET_ID G <> "".
Proof.
  unfold read_identifiers.
  destruct (getenv "DEFAULT_PROJECT_ID") as [p |], (getenv "DEFAULT_DATASET_ID") as [d |];
    simpl; try (rewrite ?orb_true_r; discriminate).
  destruct p, d; simpl; try discriminate.
  intros H. injection H as <-. simpl. repeat split; discriminate.
Qed.

(** C10. Whenever the project identifier or the dataset identifier is
    unset or empty in the environment, loading the module raises
    [ValueError]: the import leaves no module object, hence no tool
    function that could be called; and a module that did load has both
    identifiers, not empty, so no tool ever runs with one missing. *)
Theorem load_module_requires_identifiers
  (W : Warehouse) (getenv : string -> option string) :
  identifier_missing getenv ->
  load_module W getenv = inl (ValueError missing_identifiers_message)
  /\ (forall m : AgentModule, load_module W getenv <> inr m)
  /\ (forall (getenv' : string -> option string) (m : AgentModule),
        load_module W getenv' = inr m ->
        ~ identifier_missing getenv'
        /\ DEFAULT_PROJECT_ID (module_globals m) <> ""
        /\ DEFAULT_DATASET_ID (module_globals m) <> "").
Proof.
  intros H.
  assert (E : load_module W getenv = inl (ValueError missing_identifiers_message)).
  { unfold load_module. rewrite read_identifiers_missing by exact H. reflexivity. }
  split; [exact E | split].
  - intros m Hm. rewrite E in Hm. discriminate.
  - intros getenv' m Hm. unfold load_module in Hm.
    destruct (read_identifiers getenv') as [e | G'] eqn:Er; [discriminate |].
    injection Hm as <-. cbn [module_globals].
    destruct (read_identifiers_present getenv' G' Er) as (Hp & Hd & Hpn & Hdn).
    split; [| split; assumption].
    intros [Hm | [Hm | [Hm | Hm]]]; congruence.
Qed.

Lemma load_module_requires_identifiers_witness :
  identifier_missing (Samples.env_of (Some "proj") (Some ""))
  /\ load_module (Samples.serving []) (Samples.env_of (Some "proj") (Some ""))
     = inl (ValueError missing_identifiers_message).
Proof.
  split.
  - right. right. right. reflexivity.
  - apply (load_module_requires_identifiers (Samples.serving [])
             (Samples.env_of (Some "proj") (Some ""))).
    right. right. right. reflexivity.
Defined.

(** The functions of a loaded module are the tools over its globals. *)
Lemma load_module_tools (W : Warehouse) (getenv : string -> option string)
                        (m : AgentModule) :
  load_module W getenv = inr m ->
  read_identifiers getenv = inr (module_globals m)
  /\ module_list_dataset_tables m = list_dataset_tables W (module_globals m)
  /\ module_update_bigquery_records m = update_bigquery_records W (module_globals m)
  /\ module_delete_bigquery_records m = delete_bigquery_records W (module_globals m).
Proof.
  unfold load_module. destruct (read_identifiers getenv) as [e | G]; [discriminate |].
  intros H. injection H as <-. repeat split.
Qed.

(* ------------------------------------------------------------------ *)
(** ** The read tools and the exceptions of the library *)
(* ------------------------------------------------------------------ *)

Section ReadTools.

Variable W : Warehouse.
Variable G : Globals.








(** The same value is returned when the warehouse legitimately has
    nothing to report. *)
Lemma list_vacant_is_empty (client : Client) :
  bq_Client W (DEFAULT_PROJECT_ID G) = inr client ->
  bq_list_tables W client (client_dataset client (DEFAULT_DATASET_ID G)) = inr [] ->
  result (list_dataset_tables W G) = Return [].
Proof.
  unfold list_dataset_tables, new_client. intros Hc H.
  rewrite Hc, bind_call_ok, H, bind_call_ok. reflexivity.
Qed.

Lemma schema_vacant_is_empty (table_id : string) (client : Client) :
  bq_Client W (DEFAULT_PROJECT_ID G) = inr client ->
  bq_get_table W client
    (dataset_table (client_dataset client (DEFAULT_DATASET_ID G)) table_id)
  = inr (mkTable []) ->
  result (get_bigquery_table_schema W G table_id) = Return [].
Proof.
  unfold get_bigquery_table_schema, new_client. intros Hc H.
  rewrite Hc, bind_call_ok, H, bind_call_ok. reflexivity.
Qed.

Lemma query_vacant_is_empty (query : string) (client : Client) (job : QueryJob) :
  bq_Client W (DEFAULT_PROJECT_ID G) = inr client ->
  bq_query W client query [] = inr job ->
  job_rows job = inr [] ->
  result (run_bigquery_sql_query W G query) = Return [].
Proof.
  unfold run_bigquery_sql_query, new_client. intros Hc Hj H.
  rewrite Hc, bind_call_ok, Hj, bind_call_ok, H, bind_call_ok. reflexivity.
Qed.

End ReadTools.




(** An error and an empty answer cannot be told apart from the value
    returned. *)
Lemma read_error_looks_empty :
  result (list_dataset_tables Samples.failing Samples.G0)
  = result (list_dataset_tables Samples.vacant Samples.G0)
  /\ result (get_bigquery_table_schema Samples.failing Samples.G0 "orders")
     = result (get_bigquery_table_schema Samples.vacant Samples.G0 "orders")
  /\ result (run_bigquery_sql_query Samples.failing Samples.G0 "SELECT 1")
     = result (run_bigquery_sql_query Samples.vacant Samples.G0 "SELECT 1").
Proof. repeat split. Qed.

(* ------------------------------------------------------------------ *)
(** ** [update_bigquery_records]: the empty [set_values] *)
(* ------------------------------------------------------------------ *)

(** The run on an empty [set_values]: the client is constructed first; the
    literal error string is returned only if that succeeded. *)
Lemma update_empty_set_values
  (W : Warehouse) (G : Globals) (table_id where_clause : string) :
  update_bigquery_records W G table_id [] where_clause
  = ([EvClient (DEFAULT_PROJECT_ID G)],
     match bq_Client W (DEFAULT_PROJECT_ID G) with
     | inr _ => Return "Error: set_values dictionary cannot be empty."
     | inl e =>
         if exc_is_Exception e
         then Return ("Error updating table " ++ table_id ++ ": " ++ exc_str e)
         else Raise e
     end).
Proof.
  unfold update_bigquery_records, new_client.
  destruct (bq_Client W (DEFAULT_PROJECT_ID G)) as [e | c].
  - rewrite bind_call_raises, try_except_raised.
    destruct (exc_is_Exception e); reflexivity.
  - rewrite bind_call_ok. reflexivity.
Qed.

(** C6 on a host without credentials.  The claim, like the guards of
    [insert_bigquery_rows] and [delete_bigquery_records] that precede their
    [try], has the literal string returned for an empty [set_values]; here
    the client constructor raises before the emptiness test is reached,
    and the tool returns the generic update error instead. *)
Theorem update_empty_set_values_masked :
  update_bigquery_records Samples.unauthenticated Samples.G0 "orders" [] "id = 7"
  = ([EvClient "proj"],
     Return "Error updating table orders: Your default credentials were not found.")
  /\ result (update_bigquery_records Samples.unauthenticated Samples.G0 "orders" [] "id = 7")
     <> Return "Error: set_values dictionary cannot be empty."
  /\ insert_bigquery_rows Samples.unauthenticated Samples.G0 "orders" []
     = ([], Return "Error: 'rows' list cannot be empty.")
  /\ delete_bigquery_records Samples.unauthenticated Samples.G0 "orders" ""
     = ([], Return "Error: where_clause cannot be empty. To delete all rows, explicitly provide a condition like '1=1' (use with extreme caution).").
Proof. split; [reflexivity | split; [discriminate | split; reflexivity]]. Qed.

(* ------------------------------------------------------------------ *)
(** ** Loops over rows and items *)
(* ------------------------------------------------------------------ *)

(** A loop whose body never raises and performs no effect is a fold. *)
Lemma for_each_pure {A B : Type} (body : A -> B -> Tool A) (g : A -> B -> A) :
  (forall acc x, body acc x = ret (g acc x)) ->
  forall l acc, for_each body l acc = ret (fold_left g l acc).
Proof.
  intros Hb l. induction l as [| x l IH]; intros acc; simpl.
  - reflexivity.
  - rewrite Hb, bind_ret. apply IH.
Qed.

Lemma dict_set_fresh (d : dict) (k : string) (v : pyval) :
  ~ In k (keys d) -> dict_set d k v = (d ++ [(k, v)])%list.
Proof.
  induction d as [| [k' v'] d IH]; simpl; intros H.
  - reflexivity.
  - destruct (String.eqb_spec k' k) as [-> | Hne].
    + exfalso. apply H. left. reflexivity.
    + rewrite IH; [reflexivity | intros Hin; apply H; right; exact Hin].
Qed.

(** Storing the items of a dictionary one by one rebuilds it, value by
    value, behind what was already stored under other keys. *)
Lemma store_items (f : pyval -> pyval) (row acc : dict) :
  NoDup (keys acc ++ keys row) ->
  fold_left (fun d item => dict_set d (fst item) (f (snd item))) row acc
  = (acc ++ map_values f row)%list.
Proof.
  revert acc. induction row as [| [k v] row IH]; intros acc H; simpl.
  - rewrite app_nil_r. reflexivity.
  - simpl in H.
    assert (Hk : ~ In k (keys acc)).
    { intros Hin. apply NoDup_remove_2 in H. apply H.
      apply in_or_app. left. exact Hin. }
    rewrite dict_set_fresh by exact Hk.
    rewrite IH.
    + rewrite <- app_assoc. reflexivity.
    + unfold keys in *. rewrite map_app. simpl. rewrite <- app_assoc. simpl.
      apply NoDup_Add with (a := k) (l := (map fst acc ++ map fst row)%list).
      * apply Add_app.
      * split.
        -- apply NoDup_remove_1 in H. exact H.
        -- apply NoDup_remove_2 in H. exact H.
Qed.

Lemma query_item_spec (processed_row : dict) (item : string * pyval) :
  query_process_item processed_row item
  = ret (dict_set processed_row (fst item) (spec_query_value (snd item))).
Proof. destruct item as [key value]. destruct value; reflexivity. Qed.

Lemma insert_item_spec (processed_row : dict) (item : string * pyval) :
  insert_process_item processed_row item
  = ret (dict_set processed_row (fst item) (spec_insert_value (snd item))).
Proof. destruct item as [key value]. destruct value; reflexivity. Qed.

Lemma query_row_spec (processed_rows : list dict) (row : dict) :
  NoDup (keys row) ->
  query_process_row processed_rows row
  = ret (list_append processed_rows (map_values spec_query_value row)).
Proof.
  intros H. unfold query_process_row.
  rewrite (for_each_pure _ _ query_item_spec), bind_ret.
  rewrite store_items by exact H. reflexivity.
Qed.

Lemma insert_row_spec (processed_rows : list dict) (row : dict) :
  NoDup (keys row) ->
  insert_process_row processed_rows row
  = ret (list_append processed_rows (map_values spec_insert_value row)).
Proof.
  intros H. unfold insert_process_row.
  rewrite (for_each_pure _ _ insert_item_spec), bind_ret.
  rewrite store_items by exact H. reflexivity.
Qed.

(** A loop that appends one converted row per row. *)
Lemma for_each_rows (body : list dict -> dict -> Tool (list dict)) (f : dict -> dict) :
  (forall acc row, NoDup (keys row) -> body acc row = ret (list_append acc (f row))) ->
  forall rows acc,
    Forall (fun row => NoDup (keys row)) rows ->
    for_each body rows acc = ret (acc ++ map f rows)%list.
Proof.
  intros Hb rows. induction rows as [| row rows IH]; intros acc H; simpl.
  - rewrite app_nil_r. reflexivity.
  - inversion H as [| ? ? Hrow Hrows]; subst.
    rewrite Hb by exact Hrow. rewrite bind_ret, IH by exact Hrows.
    unfold list_append. rewrite <- app_assoc. reflexivity.
Qed.

Lemma is_empty_map {A B : Type} (f : A -> B) (l : list A) :
  is_empty (map f l) = is_empty l.
Proof. destruct l; reflexivity. Qed.

Section Rows.

Variable W : Warehouse.
Variable G : Globals.
Variable client : Client.
Hypothesis client_ok : bq_Client W (DEFAULT_PROJECT_ID G) = inr client.

(** The value of a query that went through. *)
Lemma query_returns (query : string) (job : QueryJob) (rows : list dict) :
  bq_query W client query [] = inr job ->
  job_rows job = inr rows ->
  Forall (fun row => NoDup (keys row)) rows ->
  result (run_bigquery_sql_query W G query)
  = Return (map (map_values spec_query_value) rows).
Proof.
  intros Hj Hr Hrows. unfold run_bigquery_sql_query, new_client.
  rewrite client_ok, bind_call_ok, Hj, bind_call_ok, Hr, bind_call_ok.
  rewrite (for_each_rows _ _ query_row_spec) by exact Hrows.
  rewrite bind_ret. simpl app. rewrite is_empty_map.
  destruct rows; reflexivity.
Qed.

(** The rows handed to [insert_rows_json]. *)
Lemma insert_sends (table_id : string) (rows : list dict) :
  rows <> [] ->
  Forall (fun row => NoDup (keys row)) rows ->
  trace (insert_bigquery_rows W G table_id rows)
  = [EvClient (DEFAULT_PROJECT_ID G);
     EvInsertRowsJson client
       (dataset_table (client_dataset client (DEFAULT_DATASET_ID G)) table_id)
       (map (map_values spec_insert_value) rows)].
Proof.
  intros Hne Hrows. unfold insert_bigquery_rows, new_client.
  destruct rows as [| row0 rows0]; [congruence |]. cbn [is_empty].
  rewrite client_ok, bind_call_ok.
  rewrite (for_each_rows _ _ insert_row_spec) by exact Hrows.
  rewrite bind_ret. simpl app.
  match goal with |- context [bq_insert_rows_json W ?c ?t ?r] =>
    destruct (bq_insert_rows_json W c t r) as [e | errors]
  end.
  - rewrite bind_call_raises. cbn [trace result fst snd].
    rewrite try_except_raised. destruct (exc_is_Exception e); reflexivity.
  - rewrite bind_call_ok. destruct errors; reflexivity.
Qed.

End Rows.

Lemma nth_error_map_values (f : pyval -> pyval) (rows : list dict) (i j : nat)
                           (row : dict) (key : string) (v : pyval) :
  nth_error rows i = Some row ->
  nth_error row j = Some (key, v) ->
  exists row', nth_error (map (map_values f) rows) i = Some row'
               /\ nth_error row' j = Some (key, f v).
Proof.
  intros Hi Hj. exists (map_values f row). split.
  - apply map_nth_error. exact Hi.
  - unfold map_values.
    apply (map_nth_error (fun item => (fst item, f (snd item)))) in Hj. exact Hj.
Qed.

(* ------------------------------------------------------------------ *)
(** ** Normalisation of dates, timestamps, decimals and times *)
(* ------------------------------------------------------------------ *)

(** C4. When a query goes through with result rows [rows],
    [run_bigquery_sql_query] returns the rows with every [datetime.date]
    and [datetime.datetime] value replaced by its ISO-8601 text, every
    [Decimal] value by its decimal text, and every other value unchanged;
    no returned field is a native date, datetime or Decimal object. *)
Theorem query_results_normalized
  (W : Warehouse) (G : Globals) (query : string)
  (client : Client) (job : QueryJob) (rows : list dict) :
  bq_Client W (DEFAULT_PROJECT_ID G) = inr client ->
  bq_query W client query [] = inr job ->
  job_rows job = inr rows ->
  Forall (fun row => NoDup (keys row)) rows ->
  exists out,
    result (run_bigquery_sql_query W G query) = Return out
    /\ out = map (map_values spec_query_value) rows
    /\ (forall row key v, In row out -> In (key, v) row ->
          type_of v <> date_ /\ type_of v <> datetime_ /\ type_of v <> Decimal_)
    /\ (forall v, type_of v <> date_ -> type_of v <> datetime_ ->
          type_of v <> Decimal_ -> spec_query_value v = v).
Proof.
  intros Hc Hj Hr Hrows. eexists. split; [| split; [reflexivity | split]].
  - apply (query_returns W G client Hc query job rows Hj Hr Hrows).
  - intros row key v Hrow Hitem.
    apply in_map_iff in Hrow. destruct Hrow as [row0 [<- _]].
    apply in_map_iff in Hitem. destruct Hitem as [[k0 v0] [E _]].
    simpl in E. injection E as _ <-.
    destruct v0; simpl; repeat split; discriminate.
  - intros v Hd Hdt Hdec. destruct v; simpl in *; congruence.
Qed.

Lemma query_results_normalized_witness :
  Forall (fun row => NoDup (keys row)) [Samples.sample_row]
  /\ exists out,
       result (run_bigquery_sql_query (Samples.serving [Samples.sample_row])
                                      Samples.G0 "SELECT 1") = Return out
       /\ out = [[("day", VStr "2000-01-01"); ("at", VStr "2000-01-01T00:00:00+00:00");
                  ("price", VStr "19.99"); ("opens", VTime Samples.noon);
                  ("qty", VInt 3)]].
Proof.
  assert (H : Forall (fun row => NoDup (keys row)) [Samples.sample_row]).
  { constructor; [| constructor].
    repeat (constructor; [simpl; intuition discriminate |]). constructor. }
  split; [exact H |].
  destruct (query_results_normalized (Samples.serving [Samples.sample_row]) Samples.G0
              "SELECT 1" (mkClient "proj") (Samples.done [Samples.sample_row])
              [Samples.sample_row] eq_refl eq_refl eq_refl H)
    as [out [Hout [Eout _]]].
  exists out. split; [exact Hout | rewrite Eout; reflexivity].
Defined.

(** C9. A [datetime.time] value is treated differently by the two tools:
    [insert_bigquery_rows] hands it to [insert_rows_json] as its ISO
    text, [run_bigquery_sql_query] returns it as the native time object. *)
Theorem time_values_asymmetric
  (W : Warehouse) (G : Globals) (table_id query : string)
  (client : Client) (job : QueryJob) (rows : list dict)
  (i j : nat) (row : dict) (key : string) (t : Datetime.time) :
  bq_Client W (DEFAULT_PROJECT_ID G) = inr client ->
  bq_query W client query [] = inr job ->
  job_rows job = inr rows ->
  Forall (fun row => NoDup (keys row)) rows ->
  nth_error rows i = Some row ->
  nth_error row j = Some (key, VTime t) ->
  (exists sent row',
      In (EvInsertRowsJson client
            (dataset_table (client_dataset client (DEFAULT_DATASET_ID G)) table_id) sent)
         (trace (insert_bigquery_rows W G table_id rows))
      /\ nth_error sent i = Some row'
      /\ nth_error row' j = Some (key, VStr (Datetime.time_isoformat t)))
  /\ (exists out row',
        result (run_bigquery_sql_query W G query) = Return out
        /\ nth_error out i = Some row'
        /\ nth_error row' j = Some (key, VTime t)).
Proof.
  intros Hc Hj Hr Hrows Hi Hitem. split.
  - destruct (nth_error_map_values spec_insert_value rows i j row key (VTime t) Hi Hitem)
      as [row' [Hrow' Hv]].
    exists (map (map_values spec_insert_value) rows), row'.
    split; [| split; [exact Hrow' | exact Hv]].
    rewrite (insert_sends W G client Hc table_id rows); [right; left; reflexivity | | exact Hrows].
    intros ->. destruct i; discriminate.
  - destruct (nth_error_map_values spec_query_value rows i j row key (VTime t) Hi Hitem)
      as [row' [Hrow' Hv]].
    exists (map (map_values spec_query_value) rows), row'.
    split; [| split; [exact Hrow' | exact Hv]].
    apply (query_returns W G client Hc query job rows Hj Hr Hrows).
Qed.

Lemma time_values_asymmetric_witness :
  (exists sent row',
      In (EvInsertRowsJson (mkClient "proj")
            (mkTableRef (mkDatasetRef "proj" "ds") "orders") sent)
         (trace (insert_bigquery_rows (Samples.serving [Samples.sample_row]) Samples.G0
                   "orders" [Samples.sample_row]))
      /\ nth_error sent 0 = Some row'
      /\ nth_error row' 3 = Some ("opens", VStr "12:00:00"))
  /\ (exists out row',
        result (run_bigquery_sql_query (Samples.serving [Samples.sample_row]) Samples.G0
                  "SELECT 1") = Return out
        /\ nth_error out 0 = Some row'
        /\ nth_error row' 3 = Some ("opens", VTime Samples.noon)).
Proof.
  apply (time_values_asymmetric (Samples.serving [Samples.sample_row]) Samples.G0
           "orders" "SELECT 1" (mkClient "proj") (Samples.done [Samples.sample_row])
           [Samples.sample_row] 0 3 Samples.sample_row "opens" Samples.noon);
    try reflexivity.
  constructor; [| constructor].
  repeat (constructor; [simpl; intuition discriminate |]). constructor.
Defined.

(* ------------------------------------------------------------------ *)
(** ** [update_bigquery_records]: type inference *)
(* ------------------------------------------------------------------ *)

(** The outcome of the chain of [isinstance] tests, class by class.  It
    agrees with the table of the specification on every class but [bool]:
    a [bool] is an instance of [int], and the [int] test comes first. *)
Lemma infer_bq_type_by_class (val : pyval) :
  infer_bq_type val
  = match type_of val with
    | bool_ => Some "INT64"
    | c => spec_bq_type c
    end.
Proof. destruct val; reflexivity. Qed.

Lemma infer_bq_type_none (val : pyval) :
  infer_bq_type val = None <-> supported_class (type_of val) = false.
Proof. destruct val; simpl; split; intros H; try reflexivity; discriminate. Qed.

Lemma infer_bq_type_some (val : pyval) :
  supported_class (type_of val) = true -> exists ty, infer_bq_type val = Some ty.
Proof. destruct val; simpl; intros H; try discriminate; eexists; reflexivity. Qed.

Lemma string_app_assoc (a b c : string) : (a ++ b) ++ c = a ++ (b ++ c).
Proof. induction a as [| x a IH]; simpl; [reflexivity | rewrite IH; reflexivity]. Qed.

Lemma update_loop_body_eq (set_clauses : list string)
                           (query_params : list ScalarQueryParameter)
                           (idx : nat) (col : string) (val : pyval) :
  update_loop_body (set_clauses, query_params) (idx, (col, val))
  = match infer_bq_type val with
    | None => raise (TypeError (unsupported_type_message col val))
    | Some bq_type =>
        ret (list_append set_clauses (spec_set_clause idx col),
             list_append query_params (mkParam (spec_param_name idx) bq_type val))
    end.
Proof. reflexivity. Qed.

(** The loop over supported items: one SET assignment and one bound
    parameter per item, numbered in order. *)
Lemma update_loop_supported (items : dict) :
  Forall (fun item => supported_class (type_of (snd item)) = true) items ->
  forall (idx : nat) (set_clauses : list string) (query_params : list ScalarQueryParameter),
    for_each update_loop_body (combine (seq idx (List.length items)) items)
             (set_clauses, query_params)
    = ret ((set_clauses ++ spec_set_clauses idx (keys items))%list,
           (query_params ++ spec_update_params infer_bq_type idx items)%list).
Proof.
  induction 1 as [| [col val] items Hval _ IH]; intros idx set_clauses query_params.
  - simpl. rewrite !app_nil_r. reflexivity.
  - cbn [List.length seq combine for_each keys map fst].
    destruct (infer_bq_type_some val Hval) as [ty Hty].
    rewrite update_loop_body_eq, Hty, bind_ret, IH.
    unfold list_append. rewrite <- !app_assoc. simpl. rewrite Hty. reflexivity.
Qed.

(** The loop stops at the first item of an unsupported class and raises
    the [TypeError] naming its class and its column. *)
Lemma update_loop_unsupported (items : dict) (col : string) (val : pyval) :
  find unsupported_item items = Some (col, val) ->
  forall (idx : nat) (acc : list string * list ScalarQueryParameter),
    for_each update_loop_body (combine (seq idx (List.length items)) items) acc
    = raise (TypeError (unsupported_type_message col val)).
Proof.
  induction items as [| [col0 val0] items IH]; intros H idx [set_clauses query_params].
  - discriminate.
  - cbn [List.length seq combine for_each].
    rewrite update_loop_body_eq.
    cbn [find] in H. unfold unsupported_item in H at 1. cbn [snd] in H.
    destruct (supported_class (type_of val0)) eqn:E; cbn [negb] in H.
    + destruct (infer_bq_type_some val0 E) as [ty Hty].
      rewrite Hty, bind_ret. apply IH. exact H.
    + injection H as -> ->.
      apply infer_bq_type_none in E. rewrite E. reflexivity.
Qed.

Lemma find_unsupported (items : dict) :
  Exists (fun item => supported_class (type_of (snd item)) = false) items ->
  exists col val, find unsupported_item items = Some (col, val)
                  /\ In (col, val) items
                  /\ supported_class (type_of val) = false.
Proof.
  induction 1 as [[col val] items H | [col val] items _ IH]; simpl.
  - simpl in H. unfold unsupported_item at 1. simpl. rewrite H. simpl.
    exists col, val. auto.
  - unfold unsupported_item at 1. simpl.
    destruct (supported_class (type_of val)) eqn:E; simpl.
    + destruct IH as [c [v [Hf [Hin Hs]]]]. exists c, v. auto.
    + exists col, val. auto.
Qed.

Section Update.

Variable W : Warehouse.
Variable G : Globals.
Variables table_id where_clause : string.

Lemma try_except_caught {A : Type} (t : list event) (e : pyexc) (o : outcome A) :
  try_except (t, Raise e) (fun _ => ([], o)) = (t, caught e o).
Proof.
  rewrite try_except_raised. unfold caught.
  destruct (exc_is_Exception e); [| reflexivity].
  cbn [trace result fst snd]. rewrite app_nil_r. reflexivity.
Qed.

Lemma update_sql_eq (cols : list string) :
  "UPDATE " ++ ("`" ++ DEFAULT_PROJECT_ID G ++ "." ++ DEFAULT_DATASET_ID G ++ "."
                ++ table_id ++ "`")
  ++ " SET " ++ PyStr.join ", " (spec_set_clauses 0 cols)
  ++ " WHERE " ++ where_clause
  = spec_update_sql G table_id cols where_clause.
Proof. unfold spec_update_sql. rewrite !string_app_assoc. reflexivity. Qed.

(** The whole run of the tool on supported values, whatever the library
    does: the client; then the job configuration; then the one statement
    with its parameters; then the wait and the report. *)
Lemma update_run_supported (set_values : dict) :
  set_values <> [] ->
  Forall (fun item => supported_class (type_of (snd item)) = true) set_values ->
  update_bigquery_records W G table_id set_values where_clause
  = let sql := spec_update_sql G table_id (keys set_values) where_clause in
    let params := spec_update_params infer_bq_type 0 set_values in
    let failed := fun e : pyexc =>
      Return ("Error updating table " ++ table_id ++ ": " ++ exc_str e) in
    match bq_Client W (DEFAULT_PROJECT_ID G) with
    | inl e => ([EvClient (DEFAULT_PROJECT_ID G)], caught e (failed e))
    | inr client =>
        match bq_QueryJobConfig_raises W params with
        | Some e => ([EvClient (DEFAULT_PROJECT_ID G)], caught e (failed e))
        | None =>
            match bq_query W client sql params with
            | inl e =>
                ([EvClient (DEFAULT_PROJECT_ID G); EvQuery client sql params],
                 caught e (failed e))
            | inr job =>
                ([EvClient (DEFAULT_PROJECT_ID G); EvQuery client sql params;
                  EvJobResult job],
                 match job_rows job with
                 | inl e => caught e (failed e)
                 | inr _ =>
                     if negb (is_empty (job_errors job))
                     then Return ("Error updating table " ++ table_id ++ ": "
                                  ++ PyStr.join "; " (job_errors job))
                     else Return ("Successfully updated "
                                  ++ format_optional_int (num_dml_affected_rows job)
                                  ++ " rows in table " ++ table_id ++ ".")
                 end)
            end
        end
    end.
Proof.
  intros Hne Hsup. unfold update_bigquery_records, new_client. cbv zeta.
  destruct (bq_Client W (DEFAULT_PROJECT_ID G)) as [e | client].
  - rewrite bind_call_raises. apply try_except_caught.
  - rewrite bind_call_ok.
    destruct set_values as [| item items] eqn:Esv; [congruence |].
    cbn [is_empty]. rewrite <- Esv in *. unfold enumerate.
    rewrite (update_loop_supported set_values Hsup), bind_ret.
    cbn [app]. rewrite update_sql_eq. unfold new_job_config.
    destruct (bq_QueryJobConfig_raises W _) as [e |].
    + rewrite bind_raise. apply try_except_caught.
    + rewrite bind_ret. cbn [query_parameters].
      destruct (bq_query W client _ _) as [e | job].
      * rewrite bind_call_raises. apply try_except_caught.
      * rewrite bind_call_ok.
        destruct (job_rows job) as [e | rows].
        -- rewrite bind_call_raises. apply try_except_caught.
        -- rewrite bind_call_ok.
           destruct (negb (is_empty (job_errors job))); reflexivity.
Qed.

(** The effects of that run. *)
Lemma update_supported_run (set_values : dict) :
  set_values <> [] ->
  Forall (fun item => supported_class (type_of (snd item)) = true) set_values ->
  trace (update_bigquery_records W G table_id set_values where_clause)
  = EvClient (DEFAULT_PROJECT_ID G)
    :: match bq_Client W (DEFAULT_PROJECT_ID G) with
       | inl _ => []
       | inr client =>
           let sql := spec_update_sql G table_id (keys set_values) where_clause in
           let params := spec_update_params infer_bq_type 0 set_values in
           match bq_QueryJobConfig_raises W params with
           | Some _ => []
           | None =>
               EvQuery client sql params
               :: match bq_query W client sql params with
                  | inl _ => []
                  | inr job => [EvJobResult job]
                  end
           end
       end.
Proof.
  intros Hne Hsup. rewrite (update_run_supported set_values Hne Hsup). cbv zeta.
  destruct (bq_Client W (DEFAULT_PROJECT_ID G)) as [e | client]; [reflexivity |].
  destruct (bq_QueryJobConfig_raises W _); [reflexivity |].
  destruct (bq_query W client _ _); reflexivity.
Qed.

(** The run of the tool when some value has no warehouse type. *)
Lemma update_unsupported_run (set_values : dict) (col : string) (val : pyval) :
  find unsupported_item set_values = Some (col, val) ->
  update_bigquery_records W G table_id set_values where_clause
  = ([EvClient (DEFAULT_PROJECT_ID G)],
     match bq_Client W (DEFAULT_PROJECT_ID G) with
     | inr _ => Return ("Error updating table " ++ table_id ++ ": "
                        ++ unsupported_type_message col val)
     | inl e => caught e (Return ("Error updating table " ++ table_id ++ ": "
                                  ++ exc_str e))
     end).
Proof.
  intros Hf. unfold update_bigquery_records, new_client.
  destruct (bq_Client W (DEFAULT_PROJECT_ID G)) as [e | client].
  - rewrite bind_call_raises. apply try_except_caught.
  - rewrite bind_call_ok.
    destruct set_values as [| item items] eqn:Esv; [discriminate |].
    cbn [is_empty]. rewrite <- Esv in *. unfold enumerate.
    rewrite (update_loop_unsupported set_values col val Hf), bind_raise.
    reflexivity.
Qed.

End Update.

Lemma spec_params_names (type_for : pyval -> option string) (items : dict) (idx : nat) :
  map param_name (spec_update_params type_for idx items)
  = map spec_param_name (seq idx (List.length items)).
Proof.
  revert idx. induction items as [| [col val] items IH]; intros idx; simpl.
  - reflexivity.
  - rewrite IH. reflexivity.
Qed.

Lemma spec_params_values (type_for : pyval -> option string) (items : dict) (idx : nat) :
  map param_value (spec_update_params type_for idx items) = map snd items.
Proof.
  revert idx. induction items as [| [col val] items IH]; intros idx; simpl.
  - reflexivity.
  - rewrite IH. reflexivity.
Qed.

Lemma spec_params_types (items : dict) (idx : nat) :
  Forall (fun item => supported_class (type_of (snd item)) = true) items ->
  map (fun p => Some (param_type p)) (spec_update_params infer_bq_type idx items)
  = map (fun item => infer_bq_type (snd item)) items.
Proof.
  intros H. revert idx. induction H as [| [col val] items Hval _ IH]; intros idx; simpl.
  - reflexivity.
  - destruct (infer_bq_type_some val Hval) as [ty Hty]. rewrite Hty, IH. reflexivity.
Qed.

(* ------------------------------------------------------------------ *)
(** ** [update_bigquery_records]: the statement and its parameters *)
(* ------------------------------------------------------------------ *)

(** C3. For every table identifier, non-empty [set_values] with values of
    supported classes and [where_clause]: every query the tool sends is the
    text [UPDATE `project.dataset.table_id` SET `col0` = @p_set_val_0,
    `col1` = @p_set_val_1, ... WHERE where_clause], which is built from the
    column names alone and ends with the clause as given; the values travel
    only as the bound parameters, one per item, in order, each with its
    name, its declared type and its value.  The tool sends this query as
    soon as the client and the job configuration that holds the
    parameters are constructed, and sends no query when either
    constructor raises. *)
Theorem update_statement_text
  (W : Warehouse) (G : Globals) (table_id where_clause : string) (set_values : dict) :
  set_values <> [] ->
  Forall (fun item => supported_class (type_of (snd item)) = true) set_values ->
  let sql := spec_update_sql G table_id (keys set_values) where_clause in
  let params := spec_update_params infer_bq_type 0 set_values in
  let run := update_bigquery_records W G table_id set_values where_clause in
  (forall c q ps, In (EvQuery c q ps) (trace run) -> q = sql /\ ps = params)
  /\ (forall client, bq_Client W (DEFAULT_PROJECT_ID G) = inr client ->
        bq_QueryJobConfig_raises W params = None ->
        exists rest,
          trace run = EvClient (DEFAULT_PROJECT_ID G) :: EvQuery client sql params :: rest
          /\ Forall (fun ev => is_query ev = false) rest)
  /\ (forall e, bq_QueryJobConfig_raises W params = Some e ->
        trace run = [EvClient (DEFAULT_PROJECT_ID G)])
  /\ map param_name params = map spec_param_name (seq 0 (List.length set_values))
  /\ map param_value params = map snd set_values
  /\ map (fun p => Some (param_type p)) params
     = map (fun item => infer_bq_type (snd item)) set_values.
Proof.
  intros Hne Hsup sql params run.
  pose proof (update_supported_run W G table_id where_clause set_values Hne Hsup) as Ht.
  fold run in Ht. cbv zeta in Ht. fold sql params in Ht.
  split; [| split; [| split; [| split; [| split]]]].
  - intros c q ps Hin. rewrite Ht in Hin.
    destruct (bq_Client W (DEFAULT_PROJECT_ID G)) as [e | client].
    + destruct Hin as [Hin | []]. discriminate.
    + destruct (bq_QueryJobConfig_raises W params) as [e |].
      * destruct Hin as [Hin | []]. discriminate.
      * destruct Hin as [Hin | [Hin | Hin]]; [discriminate | |].
        -- injection Hin as _ <- <-. split; reflexivity.
        -- destruct (bq_query W client sql params) as [e | job].
           ++ destruct Hin.
           ++ destruct Hin as [Hin | []]. discriminate.
  - intros client Hc Hcfg. rewrite Ht, Hc, Hcfg. eexists. split; [reflexivity |].
    destruct (bq_query W client sql params); repeat constructor.
  - intros e Hcfg. rewrite Ht, Hcfg.
    destruct (bq_Client W (DEFAULT_PROJECT_ID G)); reflexivity.
  - apply spec_params_names.
  - apply spec_params_values.
  - apply spec_params_types. exact Hsup.
Qed.

Lemma update_statement_text_witness :
  exists rest,
    trace (update_bigquery_records (Samples.serving []) Samples.G0 "orders"
             [("status", VStr "done"); ("qty", VInt 4)] "id = 7")
    = EvClient "proj"
      :: EvQuery (mkClient "proj")
           "UPDATE `proj.ds.orders` SET `status` = @p_set_val_0, `qty` = @p_set_val_1 WHERE id = 7"
           [mkParam "p_set_val_0" "STRING" (VStr "done");
            mkParam "p_set_val_1" "INT64" (VInt 4)]
      :: rest
    /\ Forall (fun ev => is_query ev = false) rest.
Proof.
  assert (Hne : [("status", VStr "done"); ("qty", VInt 4)] <> @nil (string * pyval))
    by discriminate.
  assert (Hsup : Forall (fun item => supported_class (type_of (snd item)) = true)
                        [("status", VStr "done"); ("qty", VInt 4)])
    by (repeat constructor).
  exact (proj1 (proj2 (update_statement_text (Samples.serving []) Samples.G0 "orders"
                         "id = 7" [("status", VStr "done"); ("qty", VInt 4)] Hne Hsup))
               (mkClient "proj") eq_refl eq_refl).
Defined.

(** A value of a supported class that no job configuration can hold: the
    tool reports the failure of the conversion and sends nothing. *)
Lemma update_unconvertible_value :
  supported_class (type_of (VDatetime Cases.first_day_east)) = true
  /\ update_bigquery_records Cases.strict_config Samples.G0 "orders"
       [("created", VDatetime Cases.first_day_east)] "id = 7"
     = ([EvClient "proj"],
        Return "Error updating table orders: date value out of range").
Proof. split; reflexivity. Qed.

(** The statement text does not change with the values. *)
Lemma update_sql_ignores_values
  (G : Globals) (table_id where_clause : string) (set_values set_values' : dict) :
  keys set_values = keys set_values' ->
  spec_update_sql G table_id (keys set_values) where_clause
  = spec_update_sql G table_id (keys set_values') where_clause.
Proof. intros ->. reflexivity. Qed.

(** C2 at a boolean value.  The specification declares a [bool] as BOOL;
    the tool binds it as INT64, because [True] passes the [int] test that
    precedes the [bool] test. *)
Theorem update_bool_declared_int64 :
  spec_bq_type (type_of (VBool true)) = Some "BOOL"
  /\ infer_bq_type (VBool true) = Some "INT64"
  /\ update_bigquery_records (Samples.serving []) Samples.G0 "orders"
       [("active", VBool true)] "id = 7"
     = ([EvClient "proj";
         EvQuery (mkClient "proj")
           "UPDATE `proj.ds.orders` SET `active` = @p_set_val_0 WHERE id = 7"
           [mkParam "p_set_val_0" "INT64" (VBool true)];
         EvJobResult (Samples.done [])],
        Return "Successfully updated 0 rows in table orders.").
Proof. repeat split. Qed.

(** On every other supported class the declared type is the one of the
    specification. *)
Lemma update_declared_types_but_bool (val : pyval) :
  supported_class (type_of val) = true ->
  type_of val <> bool_ ->
  infer_bq_type val = spec_bq_type (type_of val).
Proof. destruct val; simpl; intros H Hb; try reflexivity; congruence. Qed.

(* ------------------------------------------------------------------ *)
(** ** [update_bigquery_records]: a value without a warehouse type *)
(* ------------------------------------------------------------------ *)

(** C1, as the code has it.  When some value of [set_values] is of a class
    outside the nine supported ones, the tool constructs the client and
    does nothing else: no statement is sent.  The [TypeError] raised for
    the first such item is caught by the handler of the tool, which
    returns it as the text of an update error; it never reaches the
    caller.  (When the client constructor itself raises, the handler
    reports that exception instead if it is an instance of [Exception],
    and lets it through otherwise.) *)
Theorem update_unsupported_value_reported
  (W : Warehouse) (G : Globals) (table_id where_clause : string) (set_values : dict) :
  Exists (fun item => supported_class (type_of (snd item)) = false) set_values ->
  exists col val,
    find unsupported_item set_values = Some (col, val)
    /\ In (col, val) set_values
    /\ supported_class (type_of val) = false
    /\ update_bigquery_records W G table_id set_values where_clause
       = ([EvClient (DEFAULT_PROJECT_ID G)],
          match bq_Client W (DEFAULT_PROJECT_ID G) with
          | inr _ =>
              Return ("Error updating table " ++ table_id ++ ": "
                      ++ "Unsupported data type '" ++ class_name (type_of val)
                      ++ "' for column '" ++ col ++ "'. "
                      ++ "Supported types: str, bytes, int, float, bool, datetime.datetime, "
                      ++ "datetime.date, datetime.time, Decimal.")
          | inl e =>
              if exc_is_Exception e
              then Return ("Error updating table " ++ table_id ++ ": " ++ exc_str e)
              else Raise e
          end).
Proof.
  intros H. destruct (find_unsupported set_values H) as [col [val [Hf [Hin Hs]]]].
  exists col, val. repeat split; try assumption.
  apply (update_unsupported_run W G table_id where_clause set_values col val Hf).
Qed.

Lemma update_unsupported_value_reported_witness :
  Exists (fun item => supported_class (type_of (snd item)) = false)
         [("qty", VInt 4); ("note", VNone); ("tags", VList [])]
  /\ exists col val,
       find unsupported_item [("qty", VInt 4); ("note", VNone); ("tags", VList [])]
       = Some (col, val)
       /\ result (update_bigquery_records (Samples.serving []) Samples.G0 "orders"
                    [("qty", VInt 4); ("note", VNone); ("tags", VList [])] "id = 7")
          = Return ("Error updating table orders: Unsupported data type '"
                    ++ class_name (type_of val) ++ "' for column '" ++ col
                    ++ "'. Supported types: str, bytes, int, float, bool, datetime.datetime, datetime.date, datetime.time, Decimal.").
Proof.
  assert (H : Exists (fun item => supported_class (type_of (snd item)) = false)
                     [("qty", VInt 4); ("note", VNone); ("tags", VList [])]).
  { apply Exists_cons_tl. apply Exists_cons_hd. reflexivity. }
  split; [exact H |].
  destruct (update_unsupported_value_reported (Samples.serving []) Samples.G0 "orders"
              "id = 7" [("qty", VInt 4); ("note", VNone); ("tags", VList [])] H)
    as [col [val [Hf [_ [_ Hrun]]]]].
  exists col, val. split; [exact Hf |].
  rewrite Hrun. reflexivity.
Defined.

(** C1 as stated fails: with a [None] value the tool returns an error
    string; no [TypeError], and no exception at all, reaches the caller. *)
Lemma update_unsupported_value_not_raised :
  supported_class (type_of VNone) = false
  /\ update_bigquery_records (Samples.serving []) Samples.G0 "orders"
       [("note", VNone)] "id = 7"
     = ([EvClient "proj"],
        Return "Error updating table orders: Unsupported data type 'NoneType' for column 'note'. Supported types: str, bytes, int, float, bool, datetime.datetime, datetime.date, datetime.time, Decimal.")
  /\ forall e,
       result (update_bigquery_records (Samples.serving []) Samples.G0 "orders"
                 [("note", VNone)] "id = 7") <> Raise e.
Proof. repeat split. intros e. discriminate. Qed.

(* ------------------------------------------------------------------ *)
(** ** Effects of composed computations *)
(* ------------------------------------------------------------------ *)

Lemma trace_bind {A B : Type} (m : Tool A) (k : A -> Tool B) :
  trace (bind m k)
  = (trace m ++ match result m with
                | Return a => trace (k a)
                | Raise _ => []
                end)%list.
Proof.
  destruct m as [t [a | e]]; unfold bind, trace, result; simpl.
  - destruct (k a). reflexivity.
  - rewrite app_nil_r. reflexivity.
Qed.

Lemma trace_try_except {A : Type} (body : Tool A) (handler : pyexc -> Tool A) :
  trace (try_except body handler)
  = (trace body ++ match result body with
                   | Return _ => []
                   | Raise e => if exc_is_Exception e then trace (handler e) else []
                   end)%list.
Proof.
  destruct body as [t [a | e]].
  - unfold try_except, trace, result; simpl. rewrite app_nil_r. reflexivity.
  - rewrite try_except_raised. cbn [trace result fst snd].
    destruct (exc_is_Exception e); cbn [fst]; [reflexivity |].
    rewrite app_nil_r. reflexivity.
Qed.

Lemma fold_append_map {A B : Type} (f : A -> B) (l : list A) (acc : list B) :
  fold_left (fun acc x => list_append acc (f x)) l acc = (acc ++ map f l)%list.
Proof.
  revert acc. induction l as [| x l IH]; intros acc; simpl.
  - rewrite app_nil_r. reflexivity.
  - rewrite IH. unfold list_append. rewrite <- app_assoc. reflexivity.
Qed.

Section Avoidance.

Variable p : event -> bool.

Lemma avoids_ret {A : Type} (a : A) : avoids p (ret a).
Proof. constructor. Qed.

Lemma avoids_raise {A : Type} (e : pyexc) : avoids p (@raise A e).
Proof. constructor. Qed.

Lemma avoids_print (line : string) : p (EvPrint line) = false -> avoids p (print line).
Proof. intros H. repeat constructor. exact H. Qed.

Lemma avoids_call {A : Type} (ev : event) (answer : pyexc + A) :
  p ev = false -> avoids p (call ev answer).
Proof. intros H. repeat constructor. exact H. Qed.

Lemma avoids_bind {A B : Type} (m : Tool A) (k : A -> Tool B) :
  avoids p m -> (forall a, avoids p (k a)) -> avoids p (bind m k).
Proof.
  unfold avoids. intros Hm Hk. rewrite trace_bind. apply Forall_app. split.
  - exact Hm.
  - destruct (result m); [apply Hk | constructor].
Qed.

Lemma avoids_try_except {A : Type} (body : Tool A) (handler : pyexc -> Tool A) :
  avoids p body -> (forall e, avoids p (handler e)) -> avoids p (try_except body handler).
Proof.
  unfold avoids. intros Hb Hh. rewrite trace_try_except. apply Forall_app. split.
  - exact Hb.
  - destruct (result body) as [a | e]; [constructor |].
    destruct (exc_is_Exception e); [apply Hh | constructor].
Qed.

Lemma avoids_for_each {A B : Type} (f : A -> B -> Tool A) (l : list B) :
  (forall acc x, avoids p (f acc x)) -> forall acc, avoids p (for_each f l acc).
Proof.
  intros Hf. induction l as [| x l IH]; intros acc; simpl.
  - apply avoids_ret.
  - apply avoids_bind; [apply Hf | exact IH].
Qed.

Lemma avoids_if {A : Type} (b : bool) (m1 m2 : Tool A) :
  avoids p m1 -> avoids p m2 -> avoids p (if b then m1 else m2).
Proof. destruct b; auto. Qed.

(** The loops of the tools perform no effect of their own. *)
Lemma avoids_call_isoformat (value : pyval) : avoids p (call_isoformat value).
Proof. destruct value; constructor. Qed.

Lemma avoids_call_Decimal_str (value : pyval) : avoids p (call_Decimal_str value).
Proof. destruct value; constructor. Qed.

Lemma avoids_query_rows (rows acc : list dict) :
  avoids p (for_each query_process_row rows acc).
Proof.
  revert acc. apply avoids_for_each. intros acc row. unfold query_process_row.
  apply avoids_bind; [| intros; apply avoids_ret].
  apply avoids_for_each. intros d [key value]. unfold query_process_item.
  repeat apply avoids_if;
    try (apply avoids_bind; [| intros; apply avoids_ret]);
    auto using avoids_call_isoformat, avoids_call_Decimal_str, avoids_ret.
Qed.

Lemma avoids_insert_rows (rows acc : list dict) :
  avoids p (for_each insert_process_row rows acc).
Proof.
  revert acc. apply avoids_for_each. intros acc row. unfold insert_process_row.
  apply avoids_bind; [| intros; apply avoids_ret].
  apply avoids_for_each. intros d [key value]. unfold insert_process_item.
  repeat apply avoids_if;
    try (apply avoids_bind; [| intros; apply avoids_ret]);
    auto using avoids_call_isoformat, avoids_call_Decimal_str, avoids_ret.
Qed.

Lemma avoids_update_loop (items : list (nat * (string * pyval)))
                         (acc : list string * list ScalarQueryParameter) :
  avoids p (for_each update_loop_body items acc).
Proof.
  revert acc. apply avoids_for_each.
  intros [set_clauses query_params] [idx [col val]].
  rewrite update_loop_body_eq.
  destruct (infer_bq_type val); [apply avoids_ret | apply avoids_raise].
Qed.

(** Constructing a job configuration performs no effect. *)
Lemma avoids_new_job_config (W : Warehouse) (query_params : list ScalarQueryParameter) :
  avoids p (new_job_config W query_params).
Proof.
  unfold new_job_config.
  destruct (bq_QueryJobConfig_raises W query_params);
    [apply avoids_raise | apply avoids_ret].
Qed.

End Avoidance.

(* ------------------------------------------------------------------ *)
(** ** What a tool call never does *)
(* ------------------------------------------------------------------ *)

Ltac avoid_step :=
  first
    [ apply avoids_ret
    | apply avoids_raise
    | apply avoids_print; reflexivity
    | apply avoids_call; reflexivity
    | apply avoids_query_rows
    | apply avoids_insert_rows
    | apply avoids_update_loop
    | apply avoids_new_job_config
    | apply avoids_if
    | apply avoids_bind; [| intros ?]
    | apply avoids_try_except; [| intros ?]
    | match goal with
      | |- avoids _ (match ?x with _ => _ end) => destruct x
      | |- avoids _ (let (_, _) := ?x in _) => destruct x
      end ].

Ltac avoid := repeat avoid_step.

Lemma trace_bind_call {A B : Type} (ev : event) (answer : pyexc + A) (k : A -> Tool B) :
  trace (bind (call ev answer) k)
  = ev :: match answer with
          | inl _ => []
          | inr a => trace (k a)
          end.
Proof.
  destruct answer as [e | a].
  - rewrite bind_call_raises. reflexivity.
  - rewrite bind_call_ok. reflexivity.
Qed.

Lemma result_bind_call_raises {A B : Type} (ev : event) (e : pyexc) (k : A -> Tool B) :
  result (bind (call ev (inl e)) k) = Raise e.
Proof. reflexivity. Qed.

(** A tool that is one [try] around "construct the client, then go on". *)
Lemma client_then_one_client (W : Warehouse) (G : Globals) {A : Type}
      (k : Client -> Tool A) (handler : pyexc -> Tool A) :
  (forall c, avoids is_client (k c)) ->
  (forall e, avoids is_client (handler e)) ->
  one_client_first G (try_except (bind (new_client W G) k) handler).
Proof.
  intros Hk Hh. right. unfold new_client.
  rewrite trace_try_except, trace_bind_call. simpl app.
  eexists. split; [reflexivity |].
  apply Forall_app. split.
  - destruct (bq_Client W (DEFAULT_PROJECT_ID G)) as [e | c]; [constructor | apply Hk].
  - destruct (result _) as [a | e]; [constructor |].
    destruct (exc_is_Exception e); [apply Hh | constructor].
Qed.

Lemma avoids_filter_nil {A : Type} (p : event -> bool) (m : Tool A) :
  avoids p m -> filter p (trace m) = [].
Proof.
  unfold avoids. induction 1 as [| ev t Hev _ IH]; simpl.
  - reflexivity.
  - rewrite Hev. exact IH.
Qed.

Section Lanes.

Variable W : Warehouse.
Variable G : Globals.

Lemma list_one_client : one_client_first G (list_dataset_tables W G).
Proof. unfold list_dataset_tables. apply client_then_one_client; intros; avoid. Qed.

Lemma schema_one_client (table_id : string) :
  one_client_first G (get_bigquery_table_schema W G table_id).
Proof. unfold get_bigquery_table_schema. apply client_then_one_client; intros; avoid. Qed.

Lemma query_one_client (query : string) :
  one_client_first G (run_bigquery_sql_query W G query).
Proof. unfold run_bigquery_sql_query. apply client_then_one_client; intros; avoid. Qed.

Lemma insert_one_client (table_id : string) (rows : list dict) :
  one_client_first G (insert_bigquery_rows W G table_id rows).
Proof.
  unfold insert_bigquery_rows. destruct (is_empty rows).
  - left. reflexivity.
  - apply client_then_one_client; intros; avoid.
Qed.

Lemma update_one_client (table_id : string) (set_values : dict) (where_clause : string) :
  one_client_first G (update_bigquery_records W G table_id set_values where_clause).
Proof. unfold update_bigquery_records. apply client_then_one_client; intros; avoid. Qed.

Lemma delete_one_client (table_id where_clause : string) :
  one_client_first G (delete_bigquery_records W G table_id where_clause).
Proof.
  unfold delete_bigquery_records.
  destruct (negb (PyStr.truthy where_clause)
            || negb (PyStr.truthy (PyStr.strip where_clause))).
  - left. reflexivity.
  - apply client_then_one_client; intros; avoid.
Qed.

Lemma list_no_data_request : avoids is_data_request (list_dataset_tables W G).
Proof. unfold list_dataset_tables, new_client. avoid. Qed.

Lemma schema_no_data_request (table_id : string) :
  avoids is_data_request (get_bigquery_table_schema W G table_id).
Proof. unfold get_bigquery_table_schema, new_client. avoid. Qed.

Lemma query_no_insert (query : string) :
  avoids is_insert (run_bigquery_sql_query W G query).
Proof. unfold run_bigquery_sql_query, new_client. avoid. Qed.

Lemma update_no_insert (table_id : string) (set_values : dict) (where_clause : string) :
  avoids is_insert (update_bigquery_records W G table_id set_values where_clause).
Proof. unfold update_bigquery_records, new_client. avoid. Qed.

Lemma delete_no_insert (table_id where_clause : string) :
  avoids is_insert (delete_bigquery_records W G table_id where_clause).
Proof. unfold delete_bigquery_records, new_client. avoid. Qed.

Lemma insert_no_query (table_id : string) (rows : list dict) :
  avoids is_query (insert_bigquery_rows W G table_id rows).
Proof. unfold insert_bigquery_rows, new_client. avoid. Qed.

End Lanes.

(** X1. Each of the six tools constructs at most one client per call, for the
    configured project and before any other effect; the two guards that
    refuse their input construct none. *)
Theorem tools_construct_one_client
  (W : Warehouse) (G : Globals) (table_id query where_clause : string)
  (rows : list dict) (set_values : dict) :
  one_client_first G (list_dataset_tables W G)
  /\ one_client_first G (get_bigquery_table_schema W G table_id)
  /\ one_client_first G (run_bigquery_sql_query W G query)
  /\ one_client_first G (insert_bigquery_rows W G table_id rows)
  /\ one_client_first G (update_bigquery_records W G table_id set_values where_clause)
  /\ one_client_first G (delete_bigquery_records W G table_id where_clause).
Proof.
  repeat split.
  - apply list_one_client.
  - apply schema_one_client.
  - apply query_one_client.
  - apply insert_one_client.
  - apply update_one_client.
  - apply delete_one_client.
Qed.

(** X2. Each tool keeps to its own kind of request, whatever the warehouse
    answers: listing tables and reading a schema send neither a statement
    nor a streaming insert; the query, update and delete tools never call
    the streaming insert; the insert tool never sends a statement. *)
Theorem tools_keep_to_their_requests
  (W : Warehouse) (G : Globals) (table_id query where_clause : string)
  (rows : list dict) (set_values : dict) :
  avoids is_data_request (list_dataset_tables W G)
  /\ avoids is_data_request (get_bigquery_table_schema W G table_id)
  /\ avoids is_insert (run_bigquery_sql_query W G query)
  /\ avoids is_insert (update_bigquery_records W G table_id set_values where_clause)
  /\ avoids is_insert (delete_bigquery_records W G table_id where_clause)
  /\ avoids is_query (insert_bigquery_rows W G table_id rows).
Proof.
  repeat split.
  - apply list_no_data_request.
  - apply schema_no_data_request.
  - apply query_no_insert.
  - apply update_no_insert.
  - apply delete_no_insert.
  - apply insert_no_query.
Qed.

(* ------------------------------------------------------------------ *)
(** ** At most one data request per call *)
(* ------------------------------------------------------------------ *)

Section OneRequest.

Abbreviation sends_at_most_one m := (List.length (data_requests m) <= 1).

Lemma quiet_sends_none {A : Type} (m : Tool A) :
  avoids is_data_request m -> data_requests m = [].
Proof. apply avoids_filter_nil. Qed.

Lemma quiet_at_most_one {A : Type} (m : Tool A) :
  avoids is_data_request m -> sends_at_most_one m.
Proof. intros H. rewrite quiet_sends_none by exact H. simpl. lia. Qed.

Lemma at_most_one_after_quiet {A B : Type} (m : Tool A) (k : A -> Tool B) :
  avoids is_data_request m ->
  (forall a, sends_at_most_one (k a)) ->
  sends_at_most_one (bind m k).
Proof.
  intros Hm Hk. unfold data_requests. rewrite trace_bind, filter_app.
  rewrite (avoids_filter_nil _ _ Hm). simpl app.
  destruct (result m) as [a | e]; [apply Hk | simpl; lia].
Qed.

Lemma at_most_one_call_then_quiet {A B : Type} (ev : event) (answer : pyexc + A)
                                  (k : A -> Tool B) :
  (forall a, avoids is_data_request (k a)) ->
  sends_at_most_one (bind (call ev answer) k).
Proof.
  intros Hk. unfold data_requests. rewrite trace_bind_call.
  assert (Hrest : filter is_data_request
                    match answer with
                    | inl _ => []
                    | inr a => trace (k a)
                    end = []).
  { destruct answer as [e | a]; [reflexivity | apply avoids_filter_nil, Hk]. }
  cbn [filter]. rewrite Hrest. destruct (is_data_request ev); simpl; lia.
Qed.

Lemma at_most_one_try {A : Type} (body : Tool A) (handler : pyexc -> Tool A) :
  sends_at_most_one body ->
  (forall e, avoids is_data_request (handler e)) ->
  sends_at_most_one (try_except body handler).
Proof.
  intros Hb Hh. unfold data_requests in *. rewrite trace_try_except, filter_app.
  assert (Hrest : filter is_data_request
                    match result body with
                    | Return _ => []
                    | Raise e => if exc_is_Exception e then trace (handler e) else []
                    end = []).
  { destruct (result body) as [a | e]; [reflexivity |].
    destruct (exc_is_Exception e); [apply avoids_filter_nil, Hh | reflexivity]. }
  rewrite Hrest, app_nil_r. exact Hb.
Qed.

Variable W : Warehouse.
Variable G : Globals.

Lemma new_client_quiet : avoids is_data_request (new_client W G).
Proof. unfold new_client. avoid. Qed.

Lemma list_at_most_one : sends_at_most_one (list_dataset_tables W G).
Proof. apply quiet_at_most_one, list_no_data_request. Qed.

Lemma schema_at_most_one (table_id : string) :
  sends_at_most_one (get_bigquery_table_schema W G table_id).
Proof. apply quiet_at_most_one, schema_no_data_request. Qed.

Lemma query_at_most_one (query : string) :
  sends_at_most_one (run_bigquery_sql_query W G query).
Proof.
  unfold run_bigquery_sql_query.
  apply at_most_one_try; [| intros; avoid].
  apply at_most_one_after_quiet; [apply new_client_quiet | intros client].
  apply at_most_one_call_then_quiet. intros job. avoid.
Qed.

Lemma insert_at_most_one (table_id : string) (rows : list dict) :
  sends_at_most_one (insert_bigquery_rows W G table_id rows).
Proof.
  unfold insert_bigquery_rows. destruct (is_empty rows).
  - simpl. lia.
  - apply at_most_one_try; [| intros; avoid].
    apply at_most_one_after_quiet; [apply new_client_quiet | intros client].
    cbv zeta.
    apply at_most_one_after_quiet; [apply avoids_insert_rows | intros sent].
    apply at_most_one_call_then_quiet. intros errors. avoid.
Qed.

Lemma update_at_most_one (table_id : string) (set_values : dict) (where_clause : string) :
  sends_at_most_one (update_bigquery_records W G table_id set_values where_clause).
Proof.
  unfold update_bigquery_records.
  apply at_most_one_try; [| intros; avoid].
  apply at_most_one_after_quiet; [apply new_client_quiet | intros client].
  destruct (is_empty set_values).
  - simpl. lia.
  - apply at_most_one_after_quiet; [apply avoids_update_loop |].
    intros [set_clauses query_params]. cbv zeta.
    apply at_most_one_after_quiet; [apply avoids_new_job_config | intros job_config].
    apply at_most_one_call_then_quiet. intros job. avoid.
Qed.

Lemma delete_at_most_one (table_id where_clause : string) :
  sends_at_most_one (delete_bigquery_records W G table_id where_clause).
Proof.
  unfold delete_bigquery_records.
  destruct (negb (PyStr.truthy where_clause)
            || negb (PyStr.truthy (PyStr.strip where_clause))).
  - simpl. lia.
  - apply at_most_one_try; [| intros; avoid].
    apply at_most_one_after_quiet; [apply new_client_quiet | intros client].
    cbv zeta.
    apply at_most_one_call_then_quiet. intros job. avoid.
Qed.

End OneRequest.

(** X3. Whatever the warehouse answers, a call of a tool sends at most one
    data request (statement or streaming insert): nothing is retried and
    no second statement follows a failure. *)
Theorem tools_send_at_most_one_request
  (W : Warehouse) (G : Globals) (table_id query where_clause : string)
  (rows : list dict) (set_values : dict) :
  List.length (data_requests (list_dataset_tables W G)) <= 1
  /\ List.length (data_requests (get_bigquery_table_schema W G table_id)) <= 1
  /\ List.length (data_requests (run_bigquery_sql_query W G query)) <= 1
  /\ List.length (data_requests (insert_bigquery_rows W G table_id rows)) <= 1
  /\ List.length (data_requests
                    (update_bigquery_records W G table_id set_values where_clause)) <= 1
  /\ List.length (data_requests (delete_bigquery_records W G table_id where_clause)) <= 1.
Proof.
  split; [apply list_at_most_one |].
  split; [apply schema_at_most_one |].
  split; [apply query_at_most_one |].
  split; [apply insert_at_most_one |].
  split; [apply update_at_most_one | apply delete_at_most_one].
Qed.

(* ------------------------------------------------------------------ *)
(** ** The schema tool *)
(* ------------------------------------------------------------------ *)

(** X5. When the table is fetched, [get_bigquery_table_schema] returns one
    descriptor per column, in column order; each descriptor has exactly
    the keys [name], [type], [mode], holding the three attributes of its
    column. *)
Theorem schema_lists_every_column
  (W : Warehouse) (G : Globals) (table_id : string) (client : Client) (table : Table) :
  bq_Client W (DEFAULT_PROJECT_ID G) = inr client ->
  bq_get_table W client
    (dataset_table (client_dataset client (DEFAULT_DATASET_ID G)) table_id)
  = inr table ->
  exists out,
    result (get_bigquery_table_schema W G table_id) = Return out
    /\ List.length out = List.length (schema table)
    /\ forall i field,
         nth_error (schema table) i = Some field ->
         exists d,
           nth_error out i = Some d
           /\ keys d = ["name"; "type"; "mode"]
           /\ dict_get d "name" = Some (VStr (field_name field))
           /\ dict_get d "type" = Some (VStr (field_type field))
           /\ dict_get d "mode" = Some (VStr (field_mode field)).
Proof.
  intros Hc Ht. exists (map schema_entry (schema table)). split; [| split].
  - unfold get_bigquery_table_schema, new_client.
    rewrite Hc, bind_call_ok, Ht, bind_call_ok. cbv zeta.
    rewrite fold_append_map. simpl app. rewrite is_empty_map.
    destruct (schema table); reflexivity.
  - apply length_map.
  - intros i field Hi. exists (schema_entry field). split.
    + apply map_nth_error. exact Hi.
    + repeat split.
Qed.

Lemma schema_lists_every_column_witness :
  exists out,
    result (get_bigquery_table_schema Cases.rejecting Samples.G0 "users") = Return out
    /\ List.length out = 2
    /\ exists d, nth_error out 1 = Some d
                 /\ dict_get d "name" = Some (VStr "name")
                 /\ dict_get d "type" = Some (VStr "STRING")
                 /\ dict_get d "mode" = Some (VStr "NULLABLE").
Proof.
  destruct (schema_lists_every_column Cases.rejecting Samples.G0 "users"
              (mkClient "proj") (mkTable [Cases.id_field; Cases.name_field])
              eq_refl eq_refl) as [out [Hout [Hlen Hcols]]].
  exists out. split; [exact Hout | split; [exact Hlen |]].
  destruct (Hcols 1 Cases.name_field eq_refl) as [d [Hd [_ [Hn [Ht Hm]]]]].
  exists d. repeat split; assumption.
Defined.

(* ------------------------------------------------------------------ *)
(** ** The log tells an error from an empty answer *)
(* ------------------------------------------------------------------ *)


Lemma insert_rows_value (rows acc : list dict) :
  for_each insert_process_row rows acc
  = ret (acc ++ map (fun row =>
                       fold_left (fun d item =>
                                    dict_set d (fst item) (spec_insert_value (snd item)))
                                 row []) rows)%list.
Proof.
  rewrite (for_each_pure insert_process_row
             (fun acc row =>
                list_append acc
                  (fold_left (fun d item =>
                                dict_set d (fst item) (spec_insert_value (snd item)))
                             row []))).
  - rewrite fold_append_map. reflexivity.
  - intros acc' row. unfold insert_process_row.
    rewrite (for_each_pure _ _ insert_item_spec), bind_ret. reflexivity.
Qed.



Section Log.

Variable W : Warehouse.
Variable G : Globals.




End Log.



(* ------------------------------------------------------------------ *)
(** ** [delete_bigquery_records]: the guard and the statement *)
(* ------------------------------------------------------------------ *)

Section Delete.

Variable W : Warehouse.
Variable G : Globals.
Variables table_id where_clause : string.

Lemma delete_guard_blank :
  PyStr.all_space where_clause = true ->
  negb (PyStr.truthy where_clause) || negb (PyStr.truthy (PyStr.strip where_clause))
  = true.
Proof. intros H. rewrite strip_all_space by exact H. apply orb_true_r. Qed.

Lemma delete_guard_other :
  PyStr.all_space where_clause = false ->
  negb (PyStr.truthy where_clause) || negb (PyStr.truthy (PyStr.strip where_clause))
  = false.
Proof.
  intros H.
  assert (Hw : PyStr.truthy where_clause = true).
  { destruct where_clause; [discriminate | reflexivity]. }
  assert (Hs : PyStr.truthy (PyStr.strip where_clause) = true).
  { destruct (PyStr.strip where_clause) eqn:E; [| reflexivity].
    apply strip_empty_iff in E. congruence. }
  rewrite Hw, Hs. reflexivity.
Qed.

Lemma delete_sql_eq :
  "DELETE FROM " ++ ("`" ++ DEFAULT_PROJECT_ID G ++ "." ++ DEFAULT_DATASET_ID G ++ "."
                     ++ table_id ++ "`") ++ " WHERE " ++ where_clause
  = spec_delete_sql G table_id where_clause.
Proof. unfold spec_delete_sql. rewrite !string_app_assoc. reflexivity. Qed.

(** The run on a clause that passes the guard. *)
Lemma delete_run_other :
  PyStr.all_space where_clause = false ->
  delete_bigquery_records W G table_id where_clause
  = let sql := spec_delete_sql G table_id where_clause in
    let failed := fun e : pyexc =>
      Return ("Error deleting from table " ++ table_id ++ ": " ++ exc_str e) in
    match bq_Client W (DEFAULT_PROJECT_ID G) with
    | inl e => ([EvClient (DEFAULT_PROJECT_ID G)], caught e (failed e))
    | inr client =>
        match bq_query W client sql [] with
        | inl e =>
            ([EvClient (DEFAULT_PROJECT_ID G); EvQuery client sql []],
             caught e (failed e))
        | inr job =>
            ([EvClient (DEFAULT_PROJECT_ID G); EvQuery client sql []; EvJobResult job],
             match job_rows job with
             | inl e => caught e (failed e)
             | inr _ =>
                 if negb (is_empty (job_errors job))
                 then Return ("Error deleting from table " ++ table_id ++ ": "
                              ++ PyStr.join "; " (job_errors job))
                 else Return ("Successfully deleted "
                              ++ format_optional_int (num_dml_affected_rows job)
                              ++ " rows from table " ++ table_id ++ ".")
             end)
        end
    end.
Proof.
  intros H. unfold delete_bigquery_records. rewrite (delete_guard_other H).
  cbv zeta. rewrite delete_sql_eq. unfold new_client.
  destruct (bq_Client W (DEFAULT_PROJECT_ID G)) as [e | client].
  - rewrite bind_call_raises. apply try_except_caught.
  - rewrite bind_call_ok.
    destruct (bq_query W client _ _) as [e | job].
    + rewrite bind_call_raises. apply try_except_caught.
    + rewrite bind_call_ok. destruct (job_rows job) as [e | rows].
      * rewrite bind_call_raises. apply try_except_caught.
      * rewrite bind_call_ok.
        destruct (negb (is_empty (job_errors job))); reflexivity.
Qed.

Lemma delete_run_blank :
  PyStr.all_space where_clause = true ->
  delete_bigquery_records W G table_id where_clause = ([], Return delete_refusal).
Proof.
  intros H. unfold delete_bigquery_records. rewrite (delete_guard_blank H). reflexivity.
Qed.

End Delete.

(** X7. Every statement [delete_bigquery_records] sends is the text
    [DELETE FROM `project.dataset.table_id` WHERE where_clause] without
    parameters: the guard tests the stripped clause, the statement carries
    the clause as given.  The statement is sent whenever the clause has a
    character that is not whitespace and the client is constructed. *)
Theorem delete_statement_text
  (W : Warehouse) (G : Globals) (table_id where_clause : string) :
  let sql := spec_delete_sql G table_id where_clause in
  let run := delete_bigquery_records W G table_id where_clause in
  (forall c q ps, In (EvQuery c q ps) (trace run) -> q = sql /\ ps = [])
  /\ (PyStr.all_space where_clause = false ->
      forall client, bq_Client W (DEFAULT_PROJECT_ID G) = inr client ->
        exists rest,
          trace run = EvClient (DEFAULT_PROJECT_ID G) :: EvQuery client sql [] :: rest
          /\ Forall (fun ev => is_query ev = false) rest).
Proof.
  intros sql run. subst run. split.
  - intros c q ps. destruct (PyStr.all_space where_clause) eqn:Hb.
    + rewrite delete_run_blank by exact Hb. intros [].
    + rewrite delete_run_other by exact Hb. cbv zeta. fold sql.
      destruct (bq_Client W (DEFAULT_PROJECT_ID G)) as [e | client].
      * intros [H | []]. discriminate.
      * destruct (bq_query W client sql []) as [e | job]; simpl;
          intuition (try discriminate);
          match goal with H : EvQuery _ _ _ = EvQuery _ _ _ |- _ =>
            injection H; intros; subst; reflexivity
          end.
  - intros Hb client Hc. rewrite delete_run_other by exact Hb. cbv zeta. fold sql.
    rewrite Hc. destruct (bq_query W client sql []) as [e | job];
      eexists; (split; [reflexivity | repeat constructor]).
Qed.

Lemma delete_statement_text_witness :
  exists rest,
    trace (delete_bigquery_records (Samples.serving []) Samples.G0 "orders" " 1=1 ")
    = EvClient "proj"
      :: EvQuery (mkClient "proj") "DELETE FROM `proj.ds.orders` WHERE  1=1 " []
      :: rest
    /\ Forall (fun ev => is_query ev = false) rest.
Proof.
  exact (proj2 (delete_statement_text (Samples.serving []) Samples.G0 "orders" " 1=1 ")
               eq_refl (mkClient "proj") eq_refl).
Defined.

(** X8. [delete_bigquery_records] refuses exactly the clauses made of
    whitespace only (the empty one included): these, and no other, leave
    the run without any effect, and these, and no other, get the refusal
    string; in particular any clause such as [1=1] goes through. *)
Theorem delete_refuses_iff_blank
  (W : Warehouse) (G : Globals) (table_id where_clause : string) :
  (trace (delete_bigquery_records W G table_id where_clause) = []
   <-> PyStr.all_space where_clause = true)
  /\ (result (delete_bigquery_records W G table_id where_clause)
      = Return "Error: where_clause cannot be empty. To delete all rows, explicitly provide a condition like '1=1' (use with extreme caution)."
      <-> PyStr.all_space where_clause = true).
Proof.
  destruct (PyStr.all_space where_clause) eqn:Hb.
  - rewrite delete_run_blank by exact Hb. split; split; reflexivity.
  - rewrite delete_run_other by exact Hb. cbv zeta.
    split; split; try discriminate; intros H; exfalso.
    + destruct (bq_Client W (DEFAULT_PROJECT_ID G)) as [e | client];
        [discriminate |].
      destruct (bq_query W client _ _); discriminate.
    + unfold caught in H.
      destruct (bq_Client W (DEFAULT_PROJECT_ID G)) as [e | client].
      { cbn [result snd] in H. destruct (exc_is_Exception e); discriminate. }
      destruct (bq_query W client _ _) as [e | job].
      { cbn [result snd] in H. destruct (exc_is_Exception e); discriminate. }
      cbn [result snd] in H. destruct (job_rows job) as [e | rows].
      { destruct (exc_is_Exception e); discriminate. }
      destruct (negb (is_empty (job_errors job))); discriminate.
Qed.

(* ------------------------------------------------------------------ *)
(** ** [insert_bigquery_rows]: what is sent and what is reported *)
(* ------------------------------------------------------------------ *)

Lemma spec_insert_value_ready (v : pyval) :
  type_of (spec_insert_value v) <> date_
  /\ type_of (spec_insert_value v) <> datetime_
  /\ type_of (spec_insert_value v) <> time_
  /\ type_of (spec_insert_value v) <> Decimal_.
Proof. destruct v; simpl; repeat split; discriminate. Qed.

Lemma spec_insert_value_other (v : pyval) :
  type_of v <> date_ -> type_of v <> datetime_ -> type_of v <> time_ ->
  type_of v <> Decimal_ -> spec_insert_value v = v.
Proof. destruct v; simpl; intros; congruence. Qed.

Lemma keys_map_values (f : pyval -> pyval) (row : dict) :
  keys (map_values f row) = keys row.
Proof.
  unfold keys, map_values. rewrite map_map. apply map_ext. reflexivity.
Qed.

(** X9. With a client and a non-empty list of rows, [insert_bigquery_rows]
    hands [insert_rows_json] as many rows as it was given, each with the
    same columns in the same order; no value sent is a native date, time,
    timestamp or decimal, and a value of any other class is sent as it is. *)
Theorem insert_sends_json_ready_rows
  (W : Warehouse) (G : Globals) (table_id : string) (client : Client) (rows : list dict) :
  bq_Client W (DEFAULT_PROJECT_ID G) = inr client ->
  rows <> [] ->
  Forall (fun row => NoDup (keys row)) rows ->
  exists sent,
    trace (insert_bigquery_rows W G table_id rows)
    = [EvClient (DEFAULT_PROJECT_ID G);
       EvInsertRowsJson client
         (dataset_table (client_dataset client (DEFAULT_DATASET_ID G)) table_id) sent]
    /\ List.length sent = List.length rows
    /\ map keys sent = map keys rows
    /\ Forall json_ready sent
    /\ (forall i j row key v,
          nth_error rows i = Some row ->
          nth_error row j = Some (key, v) ->
          type_of v <> date_ -> type_of v <> datetime_ -> type_of v <> time_ ->
          type_of v <> Decimal_ ->
          exists row', nth_error sent i = Some row'
                       /\ nth_error row' j = Some (key, v)).
Proof.
  intros Hc Hne Hrows. exists (map (map_values spec_insert_value) rows).
  split; [apply (insert_sends W G client Hc table_id rows Hne Hrows) |].
  split; [apply length_map |].
  split.
  { rewrite map_map. apply map_ext. intros row. apply keys_map_values. }
  split.
  - apply Forall_forall. intros row' Hin key v Hitem.
    apply in_map_iff in Hin. destruct Hin as [row [<- _]].
    apply in_map_iff in Hitem. destruct Hitem as [[k0 v0] [E _]].
    simpl in E. injection E as _ <-. apply spec_insert_value_ready.
  - intros i j row key v Hi Hj Hd Hdt Ht Hdec.
    destruct (nth_error_map_values spec_insert_value rows i j row key v Hi Hj)
      as [row' [Hrow' Hv]].
    exists row'. split; [exact Hrow' |].
    rewrite spec_insert_value_other in Hv by assumption. exact Hv.
Qed.

Lemma insert_sends_json_ready_rows_witness :
  exists sent,
    trace (insert_bigquery_rows (Samples.serving []) Samples.G0 "orders"
             [Samples.sample_row])
    = [EvClient "proj";
       EvInsertRowsJson (mkClient "proj")
         (mkTableRef (mkDatasetRef "proj" "ds") "orders") sent]
    /\ List.length sent = 1
    /\ Forall json_ready sent.
Proof.
  assert (Hne : [Samples.sample_row] <> []) by discriminate.
  assert (H : Forall (fun row => NoDup (keys row)) [Samples.sample_row]).
  { constructor; [| constructor].
    repeat (constructor; [simpl; intuition discriminate |]). constructor. }
  destruct (insert_sends_json_ready_rows (Samples.serving []) Samples.G0 "orders"
              (mkClient "proj") [Samples.sample_row] eq_refl Hne H)
    as [sent [Htr [Hlen [_ [Hready _]]]]].
  exists sent. split; [exact Htr | split; [exact Hlen | exact Hready]].
Defined.

(** X10. What [insert_bigquery_rows] reports once the rows are on their way:
    the count of the success message is the number of rows given; a
    rejection lists every entry returned by [insert_rows_json], in order,
    as [Row index i: errors] joined by ["; "]; an exception that is an
    instance of [Exception] is reported with its text, any other leaves
    the tool as it came.  A partial rejection is reported as an error. *)
Theorem insert_reports_every_rejection
  (W : Warehouse) (G : Globals) (table_id : string) (client : Client) (rows : list dict) :
  bq_Client W (DEFAULT_PROJECT_ID G) = inr client ->
  rows <> [] ->
  Forall (fun row => NoDup (keys row)) rows ->
  result (insert_bigquery_rows W G table_id rows)
  = match bq_insert_rows_json W client
            (dataset_table (client_dataset client (DEFAULT_DATASET_ID G)) table_id)
            (map (map_values spec_insert_value) rows) with
    | inl e =>
        if exc_is_Exception e
        then Return ("Error inserting rows into table " ++ table_id ++ ": " ++ exc_str e)
        else Raise e
    | inr [] =>
        Return ("Successfully inserted " ++ PyStr.of_nat (List.length rows)
                ++ " rows into table " ++ table_id ++ ".")
    | inr errors =>
        Return ("Error inserting rows into table " ++ table_id ++ ": "
                ++ PyStr.join "; "
                     (map (fun entry => "Row index " ++ PyStr.of_Z (ie_index entry)
                                        ++ ": " ++ ie_errors entry) errors))
    end.
Proof.
  intros Hc Hne Hrows. unfold insert_bigquery_rows, new_client.
  destruct rows as [| row0 rows0] eqn:Erows; [congruence |].
  cbn [is_empty]. rewrite <- Erows in *.
  rewrite Hc, bind_call_ok. cbv zeta.
  rewrite (for_each_rows _ _ insert_row_spec) by exact Hrows.
  rewrite bind_ret. simpl app.
  destruct (bq_insert_rows_json W client _ _) as [e | errors].
  - rewrite bind_call_raises. cbn [trace result fst snd].
    rewrite try_except_raised. destruct (exc_is_Exception e); reflexivity.
  - rewrite bind_call_ok. destruct errors as [| entry errors].
    + reflexivity.
    + cbn [is_empty]. rewrite fold_append_map. reflexivity.
Qed.

Lemma insert_reports_every_rejection_witness :
  result (insert_bigquery_rows Cases.rejecting Samples.G0 "orders"
            [Samples.sample_row; Samples.sample_row; Samples.sample_row])
  = Return "Error inserting rows into table orders: Row index 0: [{'reason': 'invalid'}]; Row index 2: [{'reason': 'stopped'}]".
Proof.
  assert (Hne : [Samples.sample_row; Samples.sample_row; Samples.sample_row] <> [])
    by discriminate.
  assert (Hrow : NoDup (keys Samples.sample_row)).
  { repeat (constructor; [simpl; intuition discriminate |]). constructor. }
  assert (H : Forall (fun row => NoDup (keys row))
                     [Samples.sample_row; Samples.sample_row; Samples.sample_row])
    by (constructor; [exact Hrow | constructor; [exact Hrow |
          constructor; [exact Hrow | constructor]]]).
  rewrite (insert_reports_every_rejection Cases.rejecting Samples.G0 "orders"
             (mkClient "proj") _ eq_refl Hne H).
  reflexivity.
Defined.

(* ------------------------------------------------------------------ *)
(** ** Complete runs of the insert and update tools *)
(* ------------------------------------------------------------------ *)

Section Runs.

Variable W : Warehouse.
Variable G : Globals.
Variable table_id : string.

Lemma stored_rows_nodup (rows : list dict) :
  Forall (fun row => NoDup (keys row)) rows ->
  stored_rows rows = map (map_values spec_insert_value) rows.
Proof.
  intros H. unfold stored_rows. apply map_ext_in. intros row Hin.
  rewrite Forall_forall in H. apply (store_items spec_insert_value row []).
  simpl. apply H. exact Hin.
Qed.

Lemma insert_run (rows : list dict) :
  rows <> [] ->
  insert_bigquery_rows W G table_id rows
  = let table_ref :=
      fun client => dataset_table (client_dataset client (DEFAULT_DATASET_ID G)) table_id in
    let failed := fun e : pyexc =>
      Return ("Error inserting rows into table " ++ table_id ++ ": " ++ exc_str e) in
    match bq_Client W (DEFAULT_PROJECT_ID G) with
    | inl e => ([EvClient (DEFAULT_PROJECT_ID G)], caught e (failed e))
    | inr client =>
        ([EvClient (DEFAULT_PROJECT_ID G);
          EvInsertRowsJson client (table_ref client) (stored_rows rows)],
         match bq_insert_rows_json W client (table_ref client) (stored_rows rows) with
         | inl e => caught e (failed e)
         | inr [] =>
             Return ("Successfully inserted " ++ PyStr.of_nat (List.length rows)
                     ++ " rows into table " ++ table_id ++ ".")
         | inr errors =>
             Return ("Error inserting rows into table " ++ table_id ++ ": "
                     ++ PyStr.join "; " (map (insert_error_detail) errors))
         end)
    end.
Proof.
  intros Hne. unfold insert_bigquery_rows, new_client.
  destruct rows as [| row0 rows0] eqn:Erows; [congruence |].
  cbn [is_empty]. rewrite <- Erows in *. cbv zeta.
  destruct (bq_Client W (DEFAULT_PROJECT_ID G)) as [e | client].
  - rewrite bind_call_raises. apply try_except_caught.
  - rewrite bind_call_ok, insert_rows_value, bind_ret. simpl app.
    fold (stored_rows rows).
    destruct (bq_insert_rows_json W client _ _) as [e | errors].
    + rewrite bind_call_raises. cbn [trace result fst snd].
      apply try_except_caught.
    + rewrite bind_call_ok. destruct errors as [| entry errors].
      * reflexivity.
      * cbn [is_empty]. rewrite fold_append_map. reflexivity.
Qed.

Variable where_clause : string.

Lemma find_none_supported (set_values : dict) :
  find unsupported_item set_values = None ->
  Forall (fun item => supported_class (type_of (snd item)) = true) set_values.
Proof.
  induction set_values as [| item items IH]; simpl; intros H.
  - constructor.
  - unfold unsupported_item in H at 1.
    destruct (supported_class (type_of (snd item))) eqn:E; simpl in H.
    + constructor; [exact E | apply IH, H].
    + discriminate.
Qed.

Lemma update_run_empty :
  update_bigquery_records W G table_id [] where_clause
  = ([EvClient (DEFAULT_PROJECT_ID G)],
     match bq_Client W (DEFAULT_PROJECT_ID G) with
     | inr _ => Return "Error: set_values dictionary cannot be empty."
     | inl e => caught e (Return ("Error updating table " ++ table_id ++ ": "
                                  ++ exc_str e))
     end).
Proof.
  unfold update_bigquery_records, new_client.
  destruct (bq_Client W (DEFAULT_PROJECT_ID G)) as [e | c].
  - rewrite bind_call_raises. apply try_except_caught.
  - rewrite bind_call_ok. reflexivity.
Qed.

End Runs.

(* ------------------------------------------------------------------ *)
(** ** What the write tools report *)
(* ------------------------------------------------------------------ *)

(** X11. What [update_bigquery_records] reports, with a client and supported
    values.  If the construction of the job configuration, the dispatch
    of the statement or the wait for the job raises an instance of
    [Exception], the report is that exception (any other exception leaves
    the tool as it came); else, when the job has error entries, their
    messages joined by ["; "]; else the number of affected rows, printed
    as [None] when the job has none. *)
Theorem update_reports_job
  (W : Warehouse) (G : Globals) (table_id where_clause : string) (set_values : dict)
  (client : Client) :
  set_values <> [] ->
  Forall (fun item => supported_class (type_of (snd item)) = true) set_values ->
  bq_Client W (DEFAULT_PROJECT_ID G) = inr client ->
  let failed := fun e : pyexc =>
    if exc_is_Exception e
    then Return ("Error updating table " ++ table_id ++ ": " ++ exc_str e)
    else Raise e in
  let sql := spec_update_sql G table_id (keys set_values) where_clause in
  let params := spec_update_params infer_bq_type 0 set_values in
  result (update_bigquery_records W G table_id set_values where_clause)
  = match bq_QueryJobConfig_raises W params with
    | Some e => failed e
    | None =>
        match bq_query W client sql params with
        | inl e => failed e
        | inr job =>
            match job_rows job, job_errors job, num_dml_affected_rows job with
            | inl e, _, _ => failed e
            | inr _, [], Some n =>
                Return ("Successfully updated " ++ PyStr.of_Z n ++ " rows in table "
                        ++ table_id ++ ".")
            | inr _, [], None =>
                Return ("Successfully updated None rows in table " ++ table_id ++ ".")
            | inr _, messages, _ =>
                Return ("Error updating table " ++ table_id ++ ": "
                        ++ PyStr.join "; " messages)
            end
        end
    end.
Proof.
  intros Hne Hsup Hc failed sql params.
  rewrite (update_run_supported W G table_id where_clause set_values Hne Hsup).
  cbv zeta. fold sql params. rewrite Hc.
  destruct (bq_QueryJobConfig_raises W params) as [e |]; [reflexivity |].
  destruct (bq_query W client sql params) as [e | job]; [reflexivity |].
  cbn [result snd].
  destruct (job_rows job) as [e | rows]; [reflexivity |].
  destruct (job_errors job) as [| m ms]; cbn [is_empty negb]; [| reflexivity].
  destruct (num_dml_affected_rows job); reflexivity.
Qed.

Lemma update_reports_job_witness :
  result (update_bigquery_records Cases.rejecting Samples.G0 "orders"
            [("qty", VInt 4)] "id = 7")
  = Return "Error updating table orders: quota exceeded; try later"
  /\ result (update_bigquery_records Cases.strict_config Samples.G0 "orders"
               [("created", VDatetime Cases.first_day_east)] "id = 7")
     = Return "Error updating table orders: date value out of range".
Proof.
  assert (Hne : forall item : string * pyval, [item] <> []) by discriminate.
  assert (Hsup : Forall (fun item => supported_class (type_of (snd item)) = true)
                        [("qty", VInt 4)]) by (repeat constructor).
  assert (Hsup' : Forall (fun item => supported_class (type_of (snd item)) = true)
                         [("created", VDatetime Cases.first_day_east)])
    by (repeat constructor).
  split.
  - rewrite (update_reports_job Cases.rejecting Samples.G0 "orders" "id = 7"
               [("qty", VInt 4)] (mkClient "proj") (Hne _) Hsup eq_refl).
    reflexivity.
  - rewrite (update_reports_job Cases.strict_config Samples.G0 "orders" "id = 7"
               [("created", VDatetime Cases.first_day_east)] (mkClient "proj")
               (Hne _) Hsup' eq_refl).
    reflexivity.
Defined.

Ltac not_success :=
  let H := fresh "H" in
  let Hp := fresh "Hp" in
  cbn [result snd]; unfold caught; intros H Hp;
  repeat match goal with
         | H' : context [exc_is_Exception ?e] |- _ => destruct (exc_is_Exception e)
         end;
  try discriminate; injection H as <-; discriminate.

Section Success.

Variable W : Warehouse.
Variable G : Globals.
Variable table_id : string.

Lemma insert_success_sent (rows : list dict) (s : string) :
  result (insert_bigquery_rows W G table_id rows) = Return s ->
  String.prefix "Successfully" s = true ->
  exists client sent,
    In (EvInsertRowsJson client
          (dataset_table (client_dataset client (DEFAULT_DATASET_ID G)) table_id) sent)
       (trace (insert_bigquery_rows W G table_id rows))
    /\ bq_insert_rows_json W client
         (dataset_table (client_dataset client (DEFAULT_DATASET_ID G)) table_id) sent
       = inr [].
Proof.
  destruct rows as [| row0 rows0] eqn:Erows.
  - not_success.
  - rewrite <- Erows. assert (Hne : rows <> []) by (subst; discriminate).
    rewrite (insert_run W G table_id rows Hne). cbv zeta.
    destruct (bq_Client W (DEFAULT_PROJECT_ID G)) as [e | client]; [not_success |].
    cbn [result snd trace fst].
    destruct (bq_insert_rows_json W client _ _) as [e | errors] eqn:Hins;
      [not_success |].
    destruct errors as [| entry errors]; [| not_success].
    intros _ _. exists client, (stored_rows rows).
    split; [right; left; reflexivity | exact Hins].
Qed.

Lemma update_success_sent (set_values : dict) (where_clause s : string) :
  result (update_bigquery_records W G table_id set_values where_clause) = Return s ->
  String.prefix "Successfully" s = true ->
  exists client q ps job rows,
    In (EvQuery client q ps)
       (trace (update_bigquery_records W G table_id set_values where_clause))
    /\ bq_query W client q ps = inr job
    /\ job_rows job = inr rows
    /\ job_errors job = [].
Proof.
  destruct set_values as [| item items] eqn:Esv.
  - rewrite update_run_empty.
    destruct (bq_Client W (DEFAULT_PROJECT_ID G)); not_success.
  - rewrite <- Esv. assert (Hne : set_values <> []) by (subst; discriminate).
    destruct (find unsupported_item set_values) as [[col val] |] eqn:Hf.
    + rewrite (update_unsupported_run W G table_id where_clause set_values col val Hf).
      destruct (bq_Client W (DEFAULT_PROJECT_ID G)); not_success.
    + rewrite (update_run_supported W G table_id where_clause set_values Hne
                 (find_none_supported set_values Hf)).
      cbv zeta.
      destruct (bq_Client W (DEFAULT_PROJECT_ID G)) as [e | client]; [not_success |].
      destruct (bq_QueryJobConfig_raises W _) as [e |]; [not_success |].
      destruct (bq_query W client _ _) as [e | job] eqn:Hq; [not_success |].
      cbn [result snd trace fst].
      destruct (job_rows job) as [e | rows] eqn:Hr; [not_success |].
      destruct (job_errors job) as [| m ms] eqn:He; cbn [is_empty negb];
        [| not_success].
      intros _ _. do 5 eexists.
      split; [right; left; reflexivity |].
      split; [exact Hq | split; [exact Hr | exact He]].
Qed.

Lemma delete_success_sent (where_clause s : string) :
  result (delete_bigquery_records W G table_id where_clause) = Return s ->
  String.prefix "Successfully" s = true ->
  exists client q ps job rows,
    In (EvQuery client q ps) (trace (delete_bigquery_records W G table_id where_clause))
    /\ bq_query W client q ps = inr job
    /\ job_rows job = inr rows
    /\ job_errors job = [].
Proof.
  destruct (PyStr.all_space where_clause) eqn:Hb.
  - rewrite delete_run_blank by exact Hb. not_success.
  - rewrite delete_run_other by exact Hb. cbv zeta.
    destruct (bq_Client W (DEFAULT_PROJECT_ID G)) as [e | client]; [not_success |].
    destruct (bq_query W client _ _) as [e | job] eqn:Hq; [not_success |].
    cbn [result snd trace fst].
    destruct (job_rows job) as [e | rows] eqn:Hr; [not_success |].
    destruct (job_errors job) as [| m ms] eqn:He; cbn [is_empty negb];
      [| not_success].
    intros _ _. do 5 eexists.
    split; [right; left; reflexivity |].
    split; [exact Hq | split; [exact Hr | exact He]].
Qed.

End Success.

(** X12. A write tool never announces a success it did not obtain: when the
    returned string starts with [Successfully], the request was sent and
    the warehouse answered without any error (no rejected row for an
    insert; for an update or a delete, a job whose [result()] returned
    and whose error list is empty).  Every other outcome, the refusals
    included, is a string that does not start so. *)
Theorem write_success_means_sent
  (W : Warehouse) (G : Globals) (table_id where_clause : string)
  (rows : list dict) (set_values : dict) (s : string) :
  String.prefix "Successfully" s = true ->
  (result (insert_bigquery_rows W G table_id rows) = Return s ->
   exists client sent,
     In (EvInsertRowsJson client
           (dataset_table (client_dataset client (DEFAULT_DATASET_ID G)) table_id) sent)
        (trace (insert_bigquery_rows W G table_id rows))
     /\ bq_insert_rows_json W client
          (dataset_table (client_dataset client (DEFAULT_DATASET_ID G)) table_id) sent
        = inr [])
  /\ (result (update_bigquery_records W G table_id set_values where_clause) = Return s ->
      exists client q ps job rows',
        In (EvQuery client q ps)
           (trace (update_bigquery_records W G table_id set_values where_clause))
        /\ bq_query W client q ps = inr job
        /\ job_rows job = inr rows'
        /\ job_errors job = [])
  /\ (result (delete_bigquery_records W G table_id where_clause) = Return s ->
      exists client q ps job rows',
        In (EvQuery client q ps)
           (trace (delete_bigquery_records W G table_id where_clause))
        /\ bq_query W client q ps = inr job
        /\ job_rows job = inr rows'
        /\ job_errors job = []).
Proof.
  intros Hp. split; [| split]; intros Hres.
  - apply (insert_success_sent W G table_id rows s Hres Hp).
  - apply (update_success_sent W G table_id set_values where_clause s Hres Hp).
  - apply (delete_success_sent W G table_id where_clause s Hres Hp).
Qed.

Lemma write_success_means_sent_witness :
  exists client q ps job rows',
    In (EvQuery client q ps)
       (trace (delete_bigquery_records (Samples.serving []) Samples.G0 "orders" "1=0"))
    /\ bq_query (Samples.serving []) client q ps = inr job
    /\ job_rows job = inr rows'
    /\ job_errors job = [].
Proof.
  exact (proj2 (proj2 (write_success_means_sent (Samples.serving []) Samples.G0 "orders"
                         "1=0" [] [] "Successfully deleted 0 rows from table orders."
                         eq_refl)) eq_refl).
Defined.

(* ------------------------------------------------------------------ *)
(** ** [update_bigquery_records]: placeholders and parameters *)
(* ------------------------------------------------------------------ *)

Lemma of_nat_injective (n m : nat) : PyStr.of_nat n = PyStr.of_nat m -> n = m.
Proof.
  unfold PyStr.of_nat. intros H.
  apply DecimalNat.Unsigned.to_uint_inj.
  assert (E : NilEmpty.uint_of_string (NilEmpty.string_of_uint (Nat.to_uint n))
              = NilEmpty.uint_of_string (NilEmpty.string_of_uint (Nat.to_uint m)))
    by (rewrite H; reflexivity).
  rewrite !NilEmpty.usu in E. injection E as E. exact E.
Qed.

Lemma spec_param_name_injective (i j : nat) :
  spec_param_name i = spec_param_name j -> i = j.
Proof.
  unfold spec_param_name. simpl. intros H.
  apply of_nat_injective. congruence.
Qed.

Lemma NoDup_map_injective {A B : Type} (f : A -> B) (l : list A) :
  (forall x y, f x = f y -> x = y) -> NoDup l -> NoDup (map f l).
Proof.
  intros Hf. induction 1 as [| x l Hx _ IH]; simpl; constructor.
  - intros Hin. apply in_map_iff in Hin. destruct Hin as [y [Hy Hin]].
    apply Hf in Hy. subst y. contradiction.
  - exact IH.
Qed.

Lemma spec_clauses_match_params (type_for : pyval -> option string) (items : dict)
                                (idx : nat) :
  Forall2 (fun clause p => exists col, clause = "`" ++ col ++ "` = @" ++ param_name p)
          (spec_set_clauses idx (keys items)) (spec_update_params type_for idx items).
Proof.
  revert idx. induction items as [| [col val] items IH]; intros idx; simpl.
  - constructor.
  - constructor; [exists col; reflexivity | apply IH].
Qed.

Lemma spec_set_clauses_length (cols : list string) (idx : nat) :
  List.length (spec_set_clauses idx cols) = List.length cols.
Proof.
  revert idx. induction cols as [| col cols IH]; intros idx; simpl.
  - reflexivity.
  - rewrite IH. reflexivity.
Qed.

(** X13. The statement and its parameters fit together.  For supported
    values there are assignments and parameters, one of each per item of
    [set_values], such that the i-th assignment ends with the placeholder
    of the i-th parameter and no two parameters share a name; every query
    the tool sends has these assignments as its SET list and these
    parameters bound; and it is sent once the client and the job
    configuration are constructed. *)
Theorem update_placeholders_match_parameters
  (W : Warehouse) (G : Globals) (table_id where_clause : string) (set_values : dict) :
  set_values <> [] ->
  Forall (fun item => supported_class (type_of (snd item)) = true) set_values ->
  exists clauses params,
    let sql := "UPDATE `" ++ DEFAULT_PROJECT_ID G ++ "." ++ DEFAULT_DATASET_ID G ++ "."
               ++ table_id ++ "` SET " ++ PyStr.join ", " clauses
               ++ " WHERE " ++ where_clause in
    let run := update_bigquery_records W G table_id set_values where_clause in
    List.length clauses = List.length set_values
    /\ Forall2 (fun clause p => exists col, clause = "`" ++ col ++ "` = @" ++ param_name p)
               clauses params
    /\ NoDup (map param_name params)
    /\ (forall c q ps, In (EvQuery c q ps) (trace run) -> q = sql /\ ps = params)
    /\ (forall client,
          bq_Client W (DEFAULT_PROJECT_ID G) = inr client ->
          bq_QueryJobConfig_raises W params = None ->
          exists rest,
            trace run = EvClient (DEFAULT_PROJECT_ID G) :: EvQuery client sql params :: rest).
Proof.
  intros Hne Hsup.
  exists (spec_set_clauses 0 (keys set_values)),
         (spec_update_params infer_bq_type 0 set_values).
  cbv zeta.
  pose proof (update_supported_run W G table_id where_clause set_values Hne Hsup) as Ht.
  cbv zeta in Ht. unfold spec_update_sql in Ht.
  split; [| split; [| split; [| split]]].
  - rewrite spec_set_clauses_length. unfold keys. apply length_map.
  - apply spec_clauses_match_params.
  - rewrite spec_params_names.
    apply NoDup_map_injective; [apply spec_param_name_injective | apply seq_NoDup].
  - intros c q ps Hin. rewrite Ht in Hin.
    destruct (bq_Client W (DEFAULT_PROJECT_ID G)) as [e | client].
    + destruct Hin as [Hin | []]. discriminate.
    + destruct (bq_QueryJobConfig_raises W _) as [e |].
      * destruct Hin as [Hin | []]. discriminate.
      * destruct Hin as [Hin | [Hin | Hin]]; [discriminate | |].
        -- injection Hin as _ <- <-. split; reflexivity.
        -- destruct (bq_query W client _ _) as [e | job].
           ++ destruct Hin.
           ++ destruct Hin as [Hin | []]. discriminate.
  - intros client Hc Hcfg. rewrite Ht, Hc, Hcfg. eexists. reflexivity.
Qed.

Lemma update_placeholders_match_parameters_witness :
  exists clauses params rest,
    trace (update_bigquery_records (Samples.serving []) Samples.G0 "orders"
             [("status", VStr "done"); ("qty", VInt 4)] "id = 7")
    = EvClient "proj"
      :: EvQuery (mkClient "proj")
           ("UPDATE `proj.ds.orders` SET " ++ PyStr.join ", " clauses ++ " WHERE id = 7")
           params
      :: rest
    /\ List.length clauses = 2
    /\ NoDup (map param_name params).
Proof.
  assert (Hne : [("status", VStr "done"); ("qty", VInt 4)] <> @nil (string * pyval))
    by discriminate.
  assert (Hsup : Forall (fun item => supported_class (type_of (snd item)) = true)
                        [("status", VStr "done"); ("qty", VInt 4)])
    by (repeat constructor).
  destruct (update_placeholders_match_parameters (Samples.serving []) Samples.G0
              "orders" "id = 7" [("status", VStr "done"); ("qty", VInt 4)] Hne Hsup)
    as [clauses [params [Hlen [_ [Hnd [_ Hsent]]]]]].
  destruct (Hsent (mkClient "proj") eq_refl eq_refl) as [rest Htr].
  exists clauses, params, rest. split; [exact Htr | split; [exact Hlen | exact Hnd]].
Defined.

(* ------------------------------------------------------------------ *)
(** ** Rows read with one tool and written with the other *)
(* ------------------------------------------------------------------ *)

Lemma insert_after_query_value (v : pyval) :
  spec_insert_value (spec_query_value v) = spec_insert_value v.
Proof. destruct v; reflexivity. Qed.

Lemma insert_after_query_rows (rows : list dict) :
  map (map_values spec_insert_value) (map (map_values spec_query_value) rows)
  = map (map_values spec_insert_value) rows.
Proof.
  rewrite map_map. apply map_ext. intros row. unfold map_values.
  rewrite map_map. apply map_ext. intros [key v]. simpl.
  rewrite insert_after_query_value. reflexivity.
Qed.

(** X14. Rows returned by [run_bigquery_sql_query] can be handed to
    [insert_bigquery_rows] as they are: the insert performs the same
    effects and returns the same string as for the native rows of the
    warehouse, so the text that the query tool put in place of dates,
    timestamps and decimals is the text the insert tool would have sent. *)
Theorem queried_rows_insert_alike
  (W : Warehouse) (G : Globals) (query table_id : string)
  (client : Client) (job : QueryJob) (rows : list dict) :
  bq_Client W (DEFAULT_PROJECT_ID G) = inr client ->
  bq_query W client query [] = inr job ->
  job_rows job = inr rows ->
  rows <> [] ->
  Forall (fun row => NoDup (keys row)) rows ->
  exists out,
    result (run_bigquery_sql_query W G query) = Return out
    /\ insert_bigquery_rows W G table_id out = insert_bigquery_rows W G table_id rows.
Proof.
  intros Hc Hj Hr Hne Hrows. exists (map (map_values spec_query_value) rows).
  split; [apply (query_returns W G client Hc query job rows Hj Hr Hrows) |].
  assert (Hne' : map (map_values spec_query_value) rows <> []).
  { destruct rows; [congruence | discriminate]. }
  assert (Hrows' : Forall (fun row => NoDup (keys row))
                          (map (map_values spec_query_value) rows)).
  { apply Forall_forall. intros row' Hin. apply in_map_iff in Hin.
    destruct Hin as [row [<- Hin]]. rewrite keys_map_values.
    rewrite Forall_forall in Hrows. apply Hrows, Hin. }
  rewrite (insert_run W G table_id _ Hne'), (insert_run W G table_id _ Hne).
  rewrite (stored_rows_nodup _ Hrows'), (stored_rows_nodup _ Hrows).
  rewrite insert_after_query_rows, length_map. reflexivity.
Qed.

Lemma queried_rows_insert_alike_witness :
  exists out,
    result (run_bigquery_sql_query (Samples.serving [Samples.sample_row]) Samples.G0
              "SELECT 1") = Return out
    /\ insert_bigquery_rows (Samples.serving [Samples.sample_row]) Samples.G0 "orders" out
       = insert_bigquery_rows (Samples.serving [Samples.sample_row]) Samples.G0 "orders"
           [Samples.sample_row].
Proof.
  assert (Hne : [Samples.sample_row] <> []) by discriminate.
  assert (H : Forall (fun row => NoDup (keys row)) [Samples.sample_row]).
  { constructor; [| constructor].
    repeat (constructor; [simpl; intuition discriminate |]). constructor. }
  exact (queried_rows_insert_alike (Samples.serving [Samples.sample_row]) Samples.G0
           "SELECT 1" "orders" (mkClient "proj") (Samples.done [Samples.sample_row])
           [Samples.sample_row] eq_refl eq_refl eq_refl Hne H).
Defined.

(* ------------------------------------------------------------------ *)
(** ** The trial update of the test block *)
(* ------------------------------------------------------------------ *)

Lemma dummy_value_supported (clock : Clock) (first_field_type : string) :
  supported_class (type_of (dummy_value clock first_field_type)) = true.
Proof.
  unfold dummy_value.
  repeat match goal with
         | |- context [if ?b then _ else _] => destruct b
         end; reflexivity.
Qed.

(** X15. Whatever the type of the first column and whatever the clock reads,
    the value the test block writes is of a supported class: the trial
    update never ends on the unsupported-type error, and with a client
    and a job configuration that accepts the value it sends the one
    statement [UPDATE ... SET `column` = @p_set_val_0 WHERE 1=0], which
    selects no row, with the value as its single parameter. *)
Theorem trial_update_reaches_warehouse
  (W : Warehouse) (G : Globals) (clock : Clock) (actual_test_table_id : string)
  (first_field : SchemaField) (client : Client) :
  bq_Client W (DEFAULT_PROJECT_ID G) = inr client ->
  (forall bq_type,
     infer_bq_type (dummy_value clock (field_type first_field)) = Some bq_type ->
     bq_QueryJobConfig_raises W
       [mkParam "p_set_val_0" bq_type (dummy_value clock (field_type first_field))]
     = None) ->
  exists bq_type rest,
    infer_bq_type (dummy_value clock (field_type first_field)) = Some bq_type
    /\ trace (trial_update W G clock actual_test_table_id first_field)
       = EvClient (DEFAULT_PROJECT_ID G)
         :: EvQuery client
              ("UPDATE `" ++ DEFAULT_PROJECT_ID G ++ "." ++ DEFAULT_DATASET_ID G ++ "."
               ++ actual_test_table_id ++ "` SET `" ++ field_name first_field
               ++ "` = @p_set_val_0 WHERE 1=0")
              [mkParam "p_set_val_0" bq_type
                       (dummy_value clock (field_type first_field))]
         :: rest
    /\ Forall (fun ev => is_query ev = false) rest.
Proof.
  intros Hc Hcfg.
  destruct (infer_bq_type_some _ (dummy_value_supported clock (field_type first_field)))
    as [bq_type Hty].
  exists bq_type. eexists. split; [exact Hty |].
  unfold trial_update.
  rewrite update_supported_run.
  - rewrite Hc. cbv zeta. cbn [spec_update_params]. rewrite Hty.
    change (spec_param_name 0) with "p_set_val_0". rewrite (Hcfg bq_type Hty).
    split.
    + f_equal. f_equal.
      unfold spec_update_sql. simpl. rewrite !string_app_assoc. reflexivity.
    + destruct (bq_query W client _ _); repeat constructor.
  - discriminate.
  - constructor; [apply dummy_value_supported | constructor].
Qed.

Lemma trial_update_reaches_warehouse_witness :
  exists bq_type rest,
    infer_bq_type (dummy_value Cases.clock "TIMESTAMP") = Some bq_type
    /\ trace (trial_update (Samples.serving []) Samples.G0 Cases.clock "orders"
                (mkSchemaField "created" "TIMESTAMP" "NULLABLE"))
       = EvClient "proj"
         :: EvQuery (mkClient "proj")
              "UPDATE `proj.ds.orders` SET `created` = @p_set_val_0 WHERE 1=0"
              [mkParam "p_set_val_0" bq_type (dummy_value Cases.clock "TIMESTAMP")]
         :: rest
    /\ Forall (fun ev => is_query ev = false) rest.
Proof.
  exact (trial_update_reaches_warehouse (Samples.serving []) Samples.G0 Cases.clock
           "orders" (mkSchemaField "created" "TIMESTAMP" "NULLABLE")
           (mkClient "proj") eq_refl (fun _ _ => eq_refl)).
Defined.

(* ------------------------------------------------------------------ *)
(** ** What leaves a write tool as an exception *)
(* ------------------------------------------------------------------ *)

Ltac escaped :=
  let H := fresh "H" in
  let He := fresh "He" in
  cbn [result snd]; unfold caught; intros H;
  match goal with
  | H' : context [exc_is_Exception ?e] |- _ =>
      destruct (exc_is_Exception e) eqn:He;
      [discriminate
      | injection H as <-; split; [exact He | econstructor; eassumption]]
  | _ => discriminate
  end.

Section Escapes.

Variable W : Warehouse.
Variable G : Globals.
Variable table_id : string.

Lemma insert_escapes (rows : list dict) (e : pyexc) :
  result (insert_bigquery_rows W G table_id rows) = Raise e ->
  exc_is_Exception e = false /\ raised_by_library W e.
Proof.
  destruct rows as [| row0 rows0] eqn:Erows.
  - discriminate.
  - rewrite <- Erows. assert (Hne : rows <> []) by (subst; discriminate).
    rewrite (insert_run W G table_id rows Hne). cbv zeta.
    destruct (bq_Client W (DEFAULT_PROJECT_ID G)) as [e' | client] eqn:Hc; [escaped |].
    cbn [result snd].
    destruct (bq_insert_rows_json W client _ _) as [e' | errors] eqn:Hins; [escaped |].
    destruct errors; discriminate.
Qed.

Lemma update_escapes (set_values : dict) (where_clause : string) (e : pyexc) :
  result (update_bigquery_records W G table_id set_values where_clause) = Raise e ->
  exc_is_Exception e = false /\ raised_by_library W e.
Proof.
  destruct set_values as [| item items] eqn:Esv.
  - rewrite update_run_empty.
    destruct (bq_Client W (DEFAULT_PROJECT_ID G)) as [e' | client] eqn:Hc;
      [escaped | discriminate].
  - rewrite <- Esv. assert (Hne : set_values <> []) by (subst; discriminate).
    destruct (find unsupported_item set_values) as [[col val] |] eqn:Hf.
    + rewrite (update_unsupported_run W G table_id where_clause set_values col val Hf).
      destruct (bq_Client W (DEFAULT_PROJECT_ID G)) as [e' | client] eqn:Hc;
        [escaped | discriminate].
    + rewrite (update_run_supported W G table_id where_clause set_values Hne
                 (find_none_supported set_values Hf)).
      cbv zeta.
      destruct (bq_Client W (DEFAULT_PROJECT_ID G)) as [e' | client] eqn:Hc;
        [escaped |].
      destruct (bq_QueryJobConfig_raises W _) as [e' |] eqn:Hcfg; [escaped |].
      destruct (bq_query W client _ _) as [e' | job] eqn:Hq; [escaped |].
      cbn [result snd].
      destruct (job_rows job) as [e' | rows] eqn:Hr; [escaped |].
      destruct (negb (is_empty (job_errors job))); discriminate.
Qed.

Lemma delete_escapes (where_clause : string) (e : pyexc) :
  result (delete_bigquery_records W G table_id where_clause) = Raise e ->
  exc_is_Exception e = false /\ raised_by_library W e.
Proof.
  destruct (PyStr.all_space where_clause) eqn:Hb.
  - rewrite delete_run_blank by exact Hb. discriminate.
  - rewrite delete_run_other by exact Hb. cbv zeta.
    destruct (bq_Client W (DEFAULT_PROJECT_ID G)) as [e' | client] eqn:Hc; [escaped |].
    destruct (bq_query W client _ _) as [e' | job] eqn:Hq; [escaped |].
    cbn [result snd].
    destruct (job_rows job) as [e' | rows] eqn:Hr; [escaped |].
    destruct (negb (is_empty (job_errors job))); discriminate.
Qed.

Lemma returns_unless_raises {A : Type} (m : Tool A) :
  (forall e, result m <> Raise e) -> exists a, result m = Return a.
Proof.
  intros H. destruct (result m) as [a | e].
  - exists a. reflexivity.
  - destruct (H e). reflexivity.
Qed.

End Escapes.

(** X4. A write tool never raises an exception of its own, and never lets
    an instance of [Exception] through: whatever leaves
    [insert_bigquery_rows], [update_bigquery_records] or
    [delete_bigquery_records] as an exception was raised by a call of the
    client library and is not an instance of [Exception] (the handlers
    are [except Exception]).  Hence, with a library that raises instances
    of [Exception] only, the three tools return a string for every input;
    the [TypeError] of the type inference is among what they return. *)
Theorem write_tools_pass_only_library_interrupts
  (W : Warehouse) (G : Globals) (table_id where_clause : string)
  (rows : list dict) (set_values : dict) :
  (forall e, result (insert_bigquery_rows W G table_id rows) = Raise e ->
     exc_is_Exception e = false /\ raised_by_library W e)
  /\ (forall e,
        result (update_bigquery_records W G table_id set_values where_clause) = Raise e ->
        exc_is_Exception e = false /\ raised_by_library W e)
  /\ (forall e, result (delete_bigquery_records W G table_id where_clause) = Raise e ->
        exc_is_Exception e = false /\ raised_by_library W e)
  /\ ((forall e, raised_by_library W e -> exc_is_Exception e = true) ->
      (exists s, result (insert_bigquery_rows W G table_id rows) = Return s)
      /\ (exists s, result (update_bigquery_records W G table_id set_values where_clause)
                    = Return s)
      /\ (exists s, result (delete_bigquery_records W G table_id where_clause)
                    = Return s)).
Proof.
  split; [apply insert_escapes |].
  split; [apply update_escapes |].
  split; [apply delete_escapes |].
  intros Hlib. split; [| split]; apply returns_unless_raises; intros e He.
  - apply insert_escapes in He. destruct He as [He Hr].
    apply Hlib in Hr. congruence.
  - apply update_escapes in He. destruct He as [He Hr].
    apply Hlib in Hr. congruence.
  - apply delete_escapes in He. destruct He as [He Hr].
    apply Hlib in Hr. congruence.
Qed.

Lemma write_tools_pass_only_library_interrupts_witness :
  result (delete_bigquery_records Cases.interrupted Samples.G0 "orders" "1=0")
  = Raise Cases.interrupt
  /\ exc_is_Exception Cases.interrupt = false
  /\ raised_by_library Cases.interrupted Cases.interrupt.
Proof.
  assert (H : result (delete_bigquery_records Cases.interrupted Samples.G0 "orders" "1=0")
              = Raise Cases.interrupt) by reflexivity.
  split; [exact H |].
  exact (proj1 (proj2 (proj2 (write_tools_pass_only_library_interrupts
                                Cases.interrupted Samples.G0 "orders" "1=0" [] [])))
               Cases.interrupt H).
Defined.
